(** * go-profile: the in-memory user store and its HTTP handlers

    A shallow embedding of package [api] (the store [application] with
    [Insert], [FindAll], [FindByID], [Update], [Delete], the response
    envelope, [sendJSON] and the five handlers) together with the parts of
    the libraries it calls: [github.com/google/uuid] (identifiers),
    [encoding/json] (request decoding and response encoding) and [net/http]
    (the response writer).  Go's [map[ID]User] is a [gmap]; the pointer
    receiver [*application] becomes explicit state passing; [uuid.New()]
    reads an entropy source that is a parameter of the development, and
    so is the order in which a [range] loop visits the map.

    The first part holds the definitions, the second their properties,
    the claims of the specification and, after them, further properties of
    the code. *)

From Stdlib Require Import NArith ZArith Ascii String List Lia.
From stdpp Require Import base option list strings gmap fin_maps fin_sets.
From Equations Require Import Equations.

Local Open Scope string_scope.

(** ** Identifiers: [github.com/google/uuid]

    A [uuid.UUID] is a [[16]byte] array; it is kept here as the 128-bit
    number its bytes spell in big-endian order, so byte [i] of the array is
    [byteAt u i]. *)

Module uuid.

Definition UUID : Type := N.

#[global] Instance UUID_eq_dec : EqDecision UUID := (_ : EqDecision N).
#[global] Instance UUID_countable : Countable UUID := (_ : Countable N).

(** The values a [[16]byte] array can hold. *)
Definition wf (u : UUID) : Prop := (u < 2 ^ 128)%N.

Definition byteAt (u : UUID) (i : nat) : N :=
  ((u / 256 ^ N.of_nat (15 - i)) mod 256)%N.

Definition bytes (u : UUID) : list N := map (byteAt u) (seq 0 16).

Definition ofBytes (bs : list N) : UUID :=
  fold_left (fun acc b => (acc * 256 + b)%N) bs 0%N.

(** [uuid[i] = f(uuid[i])]. *)
Definition setByte (u : UUID) (i : nat) (f : N -> N) : UUID :=
  ofBytes (map (fun j => if Nat.eqb j i then f (byteAt u j) else byteAt u j)
               (seq 0 16)).

(** [NewRandom]: sixteen bytes are read from the entropy source, then
    [uuid[6] = (uuid[6] & 0x0f) | 0x40] (version 4) and
    [uuid[8] = (uuid[8] & 0x3f) | 0x80] (variant 10).  [block] is what
    the entropy source delivered. *)
Definition NewRandomFrom (block : N) : UUID :=
  let u := (block mod 2 ^ 128)%N in
  let u := setByte u 6 (fun b => N.lor (N.land b 15) 64) in
  setByte u 8 (fun b => N.lor (N.land b 63) 128).

(** Version 4 ([uuid[6] >> 4 == 4]) of the RFC 4122 variant
    ([uuid[8] & 0xc0 == 0x80]). *)
Definition isV4 (u : UUID) : bool :=
  ((byteAt u 6 / 16 =? 4) && (byteAt u 8 / 64 =? 2))%N.

(** [encodeHex]: lower-case digits out of ["0123456789abcdef"]. *)
Definition hexDigit (d : N) : ascii :=
  if (d <? 10)%N then ascii_of_N (48 + d) else ascii_of_N (87 + d).

Definition hexByte (b : N) (rest : string) : string :=
  String (hexDigit (b / 16)) (String (hexDigit (b mod 16)) rest).

Fixpoint hexBytes (bs : list N) (rest : string) : string :=
  match bs with
  | [] => rest
  | b :: bs' => hexByte b (hexBytes bs' rest)
  end.

(** The form xxxxxxxx-xxxx-xxxx-xxxx-xxxxxxxxxxxx of sixteen bytes. *)
Definition format (bs : list N) : string :=
  hexBytes (firstn 4 bs)
    (String "-" (hexBytes (firstn 2 (skipn 4 bs))
      (String "-" (hexBytes (firstn 2 (skipn 6 bs))
        (String "-" (hexBytes (firstn 2 (skipn 8 bs))
          (String "-" (hexBytes (skipn 10 bs) EmptyString)))))))).

(** [xvalues] and [xtob]: one hexadecimal digit, either case, and a byte
    out of two of them. *)
Definition xvalue (c : ascii) : option N :=
  let n := N_of_ascii c in
  if ((48 <=? n) && (n <=? 57))%N then Some (n - 48)%N
  else if ((97 <=? n) && (n <=? 102))%N then Some (n - 87)%N
  else if ((65 <=? n) && (n <=? 70))%N then Some (n - 55)%N
  else None.

Definition xtob (x1 x2 : ascii) : option N :=
  match xvalue x1, xvalue x2 with
  | Some h, Some l => Some (h * 16 + l)%N
  | _, _ => None
  end.

(** [n] bytes out of the first [2 * n] characters of [s]. *)
Fixpoint readBytes (n : nat) (s : string) : option (list N * string) :=
  match n with
  | O => Some ([], s)
  | S n' =>
      match s with
      | String x1 (String x2 s') =>
          match xtob x1 x2 with
          | Some b =>
              match readBytes n' s' with
              | Some (bs, r) => Some (b :: bs, r)
              | None => None
              end
          | None => None
          end
      | _ => None
      end
  end.

Definition dash (s : string) : option string :=
  match s with
  | String "-" s' => Some s'
  | _ => None
  end.

(** The body of [Parse] once [s] holds the 36 characters of the dashed
    form (anything that follows them is not looked at). *)
Definition parseDashed (s : string) : option UUID :=
  '(b1, s) ← readBytes 4 s; s ← dash s;
  '(b2, s) ← readBytes 2 s; s ← dash s;
  '(b3, s) ← readBytes 2 s; s ← dash s;
  '(b4, s) ← readBytes 2 s; s ← dash s;
  '(b5, _) ← readBytes 6 s;
  Some (ofBytes (b1 ++ b2 ++ b3 ++ b4 ++ b5)).

Definition lower (c : ascii) : ascii :=
  let n := N_of_ascii c in
  if ((65 <=? n) && (n <=? 90))%N then ascii_of_N (n + 32) else c.

Fixpoint lowerString (s : string) : string :=
  match s with
  | EmptyString => EmptyString
  | String c s' => String (lower c) (lowerString s')
  end.

Definition drop (n : nat) (s : string) : string :=
  String.substring n (String.length s - n) s.

(** [Parse]: the switch on [len(s)] accepts the dashed form (36), the
    same behind ["urn:uuid:"] in any case (45), the same between two
    further characters (38) and thirty-two bare digits (32). *)
Definition Parse (s : string) : option UUID :=
  match String.length s with
  | 36 => parseDashed s
  | 45 =>
      if String.eqb (lowerString (String.substring 0 9 s)) "urn:uuid:"
      then parseDashed (drop 9 s) else None
  | 38 => parseDashed (drop 1 s)
  | 32 => '(bs, _) ← readBytes 16 s; Some (ofBytes bs)
  | _ => None
  end.

(** [UUID.String]. *)
Definition String (u : UUID) : string := format (bytes u).

End uuid.

(** ** The store (package [api], first half) *)

(** [type ID uuid.UUID] and its [String] method. *)
Definition ID : Type := uuid.UUID.

#[global] Instance ID_eq_dec : EqDecision ID := uuid.UUID_eq_dec.
#[global] Instance ID_countable : Countable ID := uuid.UUID_countable.

Definition ID_String (id : ID) : string := uuid.String id.

Record User := mkUser {
  FirstName : string;
  LastName : string;
  Biography : string
}.

(** The zero value of [User]: what [var body User] holds and what reading
    an absent key of a [map[ID]User] yields. *)
Definition User_zero : User := mkUser "" "" "".

#[global] Instance User_eq_dec : EqDecision User.
Proof. solve_decision. Defined.

Record application := mkApplication { data : gmap ID User }.

Definition NewApplication (data : gmap ID User) : application :=
  mkApplication data.

(** [a.data[id]] read as a value: the zero value when the key is absent. *)
Definition index (a : application) (id : ID) : User :=
  default User_zero (data a !! id).

(** [_, ok := a.data[id]]. *)
Definition has (a : application) (id : ID) : bool :=
  bool_decide (is_Some (data a !! id)).

(** The result is the map of the store itself, not a copy; the one caller,
    [FindAllUsersHandler], only ranges over it. *)
Definition FindAll (a : application) : gmap ID User := data a.

(** The result [*User] points to a copy of the record ([&user] of a local
    variable), [nil] is [None]. *)
Definition FindByID (a : application) (id : ID) : option User :=
  match data a !! id with
  | Some user => Some user
  | None => None
  end.

Definition Update (a : application) (id : ID) (user : User) : application :=
  if negb (has a id) then a
  else mkApplication (<[id := user]> (data a)).

Definition Delete (a : application) (id : ID) : application :=
  if negb (has a id) then a
  else mkApplication (delete id (data a)).

Section Entropy.

(** [uuid.New()] reads the process's entropy source.  [rander n] is the
    [n]-th sixteen-byte block that source delivers; the number of blocks
    read so far is threaded through every operation that draws.  (A source
    that fails makes [uuid.New] panic; the source here always delivers.) *)
Variable rander : nat -> N.

Definition uuid_New (n : nat) : ID := uuid.NewRandomFrom (rander n).

(** The loop [for ok { id = ID(uuid.New()); _, ok = a.data[id] }] entered
    with candidate [id] after [n] blocks were read.  [fuel] bounds the
    number of iterations; [None] means it was used up. *)
Fixpoint retry (fuel : nat) (a : application) (n : nat) (id : ID)
  : option (ID * nat) :=
  if has a id then
    match fuel with
    | O => None
    | S fuel' => retry fuel' a (S n) (uuid_New n)
    end
  else Some (id, n).

Definition Insert (fuel : nat) (a : application) (n : nat) (user : User)
  : option (application * nat * (User * string)) :=
  match retry fuel a (S n) (uuid_New n) with
  | None => None
  | Some (id, n') =>
      let a' := mkApplication (<[id := user]> (data a)) in
      Some (a', n', (index a' id, ID_String id))
  end.

End Entropy.


(** ** Response bodies: what [encoding/json] writes *)

Module json.

Definition between (lo hi : N) (c : ascii) : bool :=
  ((lo <=? N_of_ascii c) && (N_of_ascii c <=? hi))%N.

(** [utf8.DecodeRuneInString] at a byte that is not ASCII: the size of
    the rune that starts the string, [0] when the bytes are not a valid
    encoding (RuneError of size 1). *)
Definition runeLen (s : string) : nat :=
  match s with
  | String c0 (String c1 r) =>
      let two := between 194 223 c0 && between 128 191 c1 in
      let lead3 :=
        (between 224 224 c0 && between 160 191 c1)
        || ((between 225 236 c0 || between 238 239 c0) && between 128 191 c1)
        || (between 237 237 c0 && between 128 159 c1) in
      let lead4 :=
        (between 240 240 c0 && between 144 191 c1)
        || (between 241 243 c0 && between 128 191 c1)
        || (between 244 244 c0 && between 128 143 c1) in
      if two then 2%nat
      else match r with
           | String c2 r' =>
               if lead3 && between 128 191 c2 then 3%nat
               else match r' with
                    | String c3 _ =>
                        if lead4 && between 128 191 c2 && between 128 191 c3
                        then 4%nat else 0%nat
                    | EmptyString => 0%nat
                    end
           | EmptyString => 0%nat
           end
  | _ => 0%nat
  end.

(** One ASCII byte inside a string literal, with [escapeHTML] on (the
    short forms [\b] and [\f] are those of Go 1.22 and later). *)
Definition escapeByte (c : ascii) : string :=
  let n := N_of_ascii c in
  if (n =? 34)%N then String "\" (String "034" EmptyString)
  else if (n =? 92)%N then "\\"
  else if (n =? 8)%N then "\b"
  else if (n =? 12)%N then "\f"
  else if (n =? 10)%N then "\n"
  else if (n =? 13)%N then "\r"
  else if (n =? 9)%N then "\t"
  else if ((n <? 32) || (n =? 60) || (n =? 62) || (n =? 38))%N
       then "\u00" +:+ String (uuid.hexDigit (n / 16))
                        (String (uuid.hexDigit (n mod 16)) EmptyString)
  else String c EmptyString.

(** U+2028 and U+2029 in UTF-8. *)
Definition lineSeparator : string :=
  String "226" (String "128" (String "168" EmptyString)).
Definition paragraphSeparator : string :=
  String "226" (String "128" (String "169" EmptyString)).

(** The body of [appendString].  [copy] counts the bytes of the current
    rune still to be copied through, [skip] the bytes of an escaped rune
    still to be passed over. *)
Fixpoint escape (copy skip : nat) (s : string) : string :=
  match s with
  | EmptyString => EmptyString
  | String c s' =>
      match copy, skip with
      | S k, _ => String c (escape k skip s')
      | O, S k => escape O k s'
      | O, O =>
          if (N_of_ascii c <? 128)%N then escapeByte c +:+ escape O O s'
          else match runeLen s with
               | O => "\ufffd" +:+ escape O O s'
               | S k =>
                   if String.prefix lineSeparator s
                   then "\u2028" +:+ escape O k s'
                   else if String.prefix paragraphSeparator s
                   then "\u2029" +:+ escape O k s'
                   else String c (escape k O s')
               end
      end
  end.

Definition encodeString (s : string) : string :=
  String "034" (escape 0 0 s +:+ String "034" EmptyString).

(** A struct field or object member: the quoted name, a colon, the
    encoded value. *)
Definition member (name value : string) : string :=
  encodeString name +:+ ":" +:+ value.

Definition object (members : list string) : string :=
  "{" +:+ String.concat "," members +:+ "}".

Definition array (elements : list string) : string :=
  "[" +:+ String.concat "," elements +:+ "]".

(** Request bodies: the JSON value a body starts with, as the decoder's
    scanner delivers it (string literals unquoted). *)
#[warnings="-register-all"]
Inductive Value :=
| Null
| Bool (b : bool)
| Number (literal : string)
| Str (s : string)
| Array (elements : list Value)
| Object (members : list (string * Value)).

(** U+212A and U+017F in UTF-8. *)
Definition kelvinSign : string :=
  String "226" (String "132" (String "170" EmptyString)).
Definition longS : string := String "197" (String "191" EmptyString).

(** [foldName]: the key under which a field is looked up when no field
    has exactly that name.  ASCII letters go to upper case; of the other
    runes only U+017F and U+212A fold onto an ASCII letter (S and K).
    [skip] counts the bytes of such a rune still to be passed over. *)

Fixpoint foldName (skip : nat) (s : string) : string :=
  match s with
  | EmptyString => EmptyString
  | String c r =>
      match skip with
      | S k => foldName k r
      | O =>
          if String.prefix kelvinSign s then String "K" (foldName 2 r)
          else if String.prefix longS s then String "S" (foldName 1 r)
          else if between 97 122 c
          then String (ascii_of_N (N_of_ascii c - 32)) (foldName 0 r)
          else String c (foldName 0 r)
      end
  end.

End json.

(** ** Responses: [net/http] as the handlers use it *)

Module http.

Definition StatusOK : Z := 200.
Definition StatusCreated : Z := 201.
Definition StatusNoContent : Z := 204.
Definition StatusNotModified : Z := 304.
Definition StatusBadRequest : Z := 400.
Definition StatusNotFound : Z := 404.
Definition StatusInternalServerError : Z := 500.

(** What the server sends for one request: the header fields, the status
    line once [WriteHeader] has run, and the body written so far. *)
Record ResponseWriter := mkResponseWriter {
  Header : gmap string string;
  wroteHeader : bool;
  status : Z;
  body : string
}.

(** The writer a handler is called with. *)
Definition fresh : ResponseWriter := mkResponseWriter ∅ false 0 "".

(** [w.Header().Set(key, value)]; the header fields are fixed once the
    status line is written. *)
Definition Header_Set (w : ResponseWriter) (key value : string)
  : ResponseWriter :=
  if wroteHeader w then w
  else mkResponseWriter (<[key := value]> (Header w)) false (status w) (body w).

(** [w.WriteHeader(code)]; a second call is ignored. *)
Definition WriteHeader (w : ResponseWriter) (code : Z) : ResponseWriter :=
  if wroteHeader w then w
  else mkResponseWriter (Header w) true code (body w).

Definition bodyAllowedForStatus (code : Z) : bool :=
  if ((100 <=? code) && (code <=? 199))%Z then false
  else if (code =? StatusNoContent)%Z then false
  else if (code =? StatusNotModified)%Z then false
  else true.

(** [w.Write(data)]: writes the status line with 200 when none was
    written, and refuses a body ([ErrBodyNotAllowed], [false] here) when
    the status does not allow one.  Failures of the connection are not
    modelled. *)
Definition Write (w : ResponseWriter) (data : string)
  : ResponseWriter * bool :=
  let w := if wroteHeader w then w else WriteHeader w StatusOK in
  if (String.length data =? 0)%nat then (w, true)
  else if negb (bodyAllowedForStatus (status w)) then (w, false)
  else (mkResponseWriter (Header w) (wroteHeader w) (status w)
          (body w +:+ data), true).

(** [http.Error(w, error, code)]: a plain-text reply, the message
    followed by a newline. *)
Definition Error (w : ResponseWriter) (error : string) (code : Z)
  : ResponseWriter :=
  let w := Header_Set w "Content-Type" "text/plain; charset=utf-8" in
  let w := Header_Set w "X-Content-Type-Options" "nosniff" in
  let w := WriteHeader w code in
  fst (Write w (error +:+ String "010" EmptyString)).

End http.

(** ** The HTTP layer (package [api], second half) *)

Record UserResponse := mkUserResponse {
  UserResponse_ID : string;
  UserResponse_FirstName : string;
  UserResponse_LastName : string;
  UserResponse_Biography : string
}.

(** The dynamic values the field [Data any] is given in this package: no
    value, one [UserResponse], or a [[]UserResponse] slice, whose [nil] is
    [None].  [any_unsupported] stands for a value [encoding/json] has no
    encoding for (a channel, a function); no handler builds one. *)
Inductive any :=
| any_nil
| any_UserResponse (r : UserResponse)
| any_slice (rs : option (list UserResponse))
| any_unsupported.

Record Response := mkResponse {
  Error : string;
  Data : any
}.

Definition marshalUserResponse (r : UserResponse) : string :=
  json.object
    [ json.member "id" (json.encodeString (UserResponse_ID r));
      json.member "first_name" (json.encodeString (UserResponse_FirstName r));
      json.member "last_name" (json.encodeString (UserResponse_LastName r));
      json.member "biography" (json.encodeString (UserResponse_Biography r)) ].

(** The encoding of the interface value, [inr] carrying the error. *)
Definition marshalAny (d : any) : string + string :=
  match d with
  | any_nil => inl "null"
  | any_UserResponse r => inl (marshalUserResponse r)
  | any_slice None => inl "null"
  | any_slice (Some rs) => inl (json.array (map marshalUserResponse rs))
  | any_unsupported => inr "json: unsupported type"
  end.

(** [json.Marshal(resp)] for [resp : Response].  Both fields carry
    [omitempty]: [Error] is left out when it is the empty string, [Data]
    when the interface is nil. *)
Definition json_Marshal (resp : Response) : string + string :=
  let error :=
    if String.eqb (Error resp) "" then []
    else [json.member "error" (json.encodeString (Error resp))] in
  match Data resp with
  | any_nil => inl (json.object error)
  | d =>
      match marshalAny d with
      | inl v => inl (json.object (error ++ [json.member "data" v]))
      | inr e => inr e
      end
  end.

(** The state a request runs in: the store behind [db], the number of
    blocks read from the entropy source, and the lines [slog] has written. *)
Record Env := mkEnv {
  db : application;
  reads : nat;
  logs : list string
}.

Definition slog_Error (e : Env) (msg : string) : Env :=
  mkEnv (db e) (reads e) (logs e ++ [msg]).

Definition marshalFails (resp : Response) : nat :=
  match json_Marshal resp with
  | inl _ => 0
  | inr _ => 1
  end.

Definition somethingWentWrong : Response :=
  mkResponse "something went wrong" any_nil.

Equations? sendJSON (e : Env) (w : http.ResponseWriter) (resp : Response)
  (status : Z) : Env * http.ResponseWriter by wf (marshalFails resp) lt :=
sendJSON e w resp status with Logic.inspect (json_Marshal resp) := {
  | exist _ (inr err) Herr =>
      sendJSON (slog_Error e "failed to marshal JSON data.")
        (http.Header_Set w "Content-Type" "application/json")
        somethingWentWrong http.StatusInternalServerError
  | exist _ (inl data) Hdata =>
      let w := http.Header_Set w "Content-Type" "application/json" in
      let w := http.WriteHeader w status in
      match http.Write w data with
      | (w, false) => (slog_Error e "failed to write response to client.", w)
      | (w, true) => (e, w)
      end }.
Proof. unfold marshalFails. rewrite Herr. cbn. lia. Qed.

(** A request as a handler reads it: [chi.URLParam(r, "id")] and the JSON
    value the body starts with ([None] when the body does not start with
    well-formed JSON: a syntax error, an empty body). *)
Record Request := mkRequest {
  URLParam_id : string;
  Body : option json.Value
}.

(** A member of a JSON object decoded into a [User]: the field is found by
    its [json] name, letter case ignored; a string sets it, [null] leaves
    it, any other value is an [UnmarshalTypeError]; a key that names no
    field is skipped. *)
Definition decodeMember (body : option User) (m : string * json.Value)
  : option User :=
  match body with
  | None => None
  | Some body =>
      let name := json.foldName 0 (fst m) in
      let set (f : string -> User) :=
        match snd m with
        | json.Str s => Some (f s)
        | json.Null => Some body
        | _ => None
        end in
      if String.eqb name "FIRST_NAME"
      then set (fun s => mkUser s (LastName body) (Biography body))
      else if String.eqb name "LAST_NAME"
      then set (fun s => mkUser (FirstName body) s (Biography body))
      else if String.eqb name "BIOGRAPHY"
      then set (fun s => mkUser (FirstName body) (LastName body) s)
      else Some body
  end.

(** [json.NewDecoder(r.Body).Decode(&body)]: [None] is [err != nil]. *)
Definition Decode (r : Request) (body : User) : option User :=
  match Body r with
  | None => None
  | Some json.Null => Some body
  | Some (json.Object members) => foldl decodeMember (Some body) members
  | Some _ => None
  end.

(** [append(response, r)] on a slice whose [nil] is [None]. *)
Definition append (response : option (list UserResponse)) (r : UserResponse)
  : option (list UserResponse) :=
  match response with
  | None => Some [r]
  | Some rs => Some (rs ++ [r])%list
  end.

Definition provideFields : string :=
  "Please provide FirstName LastName and bio for the user".

Definition doesNotExist : string :=
  "The user with the specified ID does not exist.".

(** [for id, user := range users]: the loop visits every entry of the
    map once, in an order Go leaves open and changes from one loop to the
    next.  [order] stands for the choices of the runtime: at step [i] the
    loop takes, among the entries it has not visited yet, the one at
    position [order i] (modulo their number).  Every order of the entries
    is the order of the loop for some [order]. *)
Fixpoint visit {A : Type} (fuel : nat) (order : nat -> nat) (step : nat)
  (rest : list A) : list A :=
  match fuel with
  | O => []
  | S fuel' =>
      let j := order step mod List.length rest in
      match rest !! j with
      | Some x => x :: visit fuel' order (S step) (delete j rest)
      | None => []
      end
  end.

Definition range (order : nat -> nat) (users : gmap ID User)
  : list (ID * User) :=
  let entries := map_to_list users in
  visit (List.length entries) order 0 entries.

Section Handlers.

Variable rander : nat -> N.

(** [None]: the retry loop of [Insert] used up [fuel]. *)
Definition CreateUserHandler (fuel : nat) (e : Env) (w : http.ResponseWriter)
  (r : Request) : option (Env * http.ResponseWriter) :=
  match Decode r User_zero with
  | None =>
      Some (sendJSON e w (mkResponse provideFields any_nil)
              http.StatusBadRequest)
  | Some body =>
      match Insert rander fuel (db e) (reads e) body with
      | None => None
      | Some (a, n, (user, ID)) =>
          Some (sendJSON (mkEnv a n (logs e)) w
                  (mkResponse ""
                     (any_UserResponse
                        (mkUserResponse ID (FirstName user) (LastName user)
                           (Biography user))))
                  http.StatusCreated)
      end
  end.

(** [order]: the order in which this run of the loop visits the entries
    of the map ([range]). *)
Definition FindAllUsersHandler (order : nat -> nat) (e : Env)
  (w : http.ResponseWriter) (r : Request) : Env * http.ResponseWriter :=
  let users := FindAll (db e) in
  let response :=
    foldl (fun response entry =>
             append response
               (mkUserResponse (ID_String (fst entry))
                  (FirstName (snd entry)) (LastName (snd entry))
                  (Biography (snd entry))))
          None (range order users) in
  match response with
  | None => sendJSON e w (mkResponse "" (any_slice (Some []))) http.StatusOK
  | Some _ => sendJSON e w (mkResponse "" (any_slice response)) http.StatusOK
  end.

Definition FindByIDUserHandler (e : Env) (w : http.ResponseWriter)
  (r : Request) : Env * http.ResponseWriter :=
  let rawID := URLParam_id r in
  match uuid.Parse rawID with
  | None => (e, http.Error w "UUID not valid" http.StatusBadRequest)
  | Some id =>
      match FindByID (db e) id with
      | None => sendJSON e w (mkResponse doesNotExist any_nil)
                  http.StatusNotFound
      | Some user =>
          sendJSON e w
            (mkResponse ""
               (any_UserResponse
                  (mkUserResponse rawID (FirstName user) (LastName user)
                     (Biography user))))
            http.StatusOK
      end
  end.

Definition UpdateUserHandler (e : Env) (w : http.ResponseWriter)
  (r : Request) : Env * http.ResponseWriter :=
  match Decode r User_zero with
  | None => sendJSON e w (mkResponse provideFields any_nil)
              http.StatusBadRequest
  | Some body =>
      let rawID := URLParam_id r in
      match uuid.Parse rawID with
      | None => (e, http.Error w "UUID not valid" http.StatusBadRequest)
      | Some id =>
          match FindByID (db e) id with
          | None => sendJSON e w (mkResponse doesNotExist any_nil)
                      http.StatusNotFound
          | Some _ =>
              let e := mkEnv (Update (db e) id body) (reads e) (logs e) in
              sendJSON e w (mkResponse "" any_nil) http.StatusNoContent
          end
      end
  end.

Definition DeleteUserHandler (e : Env) (w : http.ResponseWriter)
  (r : Request) : Env * http.ResponseWriter :=
  let rawID := URLParam_id r in
  match uuid.Parse rawID with
  | None => (e, http.Error w "UUID not valid" http.StatusBadRequest)
  | Some id =>
      match FindByID (db e) id with
      | None => sendJSON e w (mkResponse doesNotExist any_nil)
                  http.StatusNotFound
      | Some _ =>
          let e := mkEnv (Delete (db e) id) (reads e) (logs e) in
          sendJSON e w (mkResponse "" any_nil) http.StatusNoContent
      end
  end.

(** The routes [NewHandler] registers under [/api]. *)
Inductive Route :=
| POST_users
| GET_users
| GET_users_id
| PUT_users_id
| DELETE_users_id.

Definition NewHandler (route : Route) (fuel : nat) (order : nat -> nat)
  (e : Env) (w : http.ResponseWriter) (r : Request)
  : option (Env * http.ResponseWriter) :=
  match route with
  | POST_users => CreateUserHandler fuel e w r
  | GET_users => Some (FindAllUsersHandler order e w r)
  | GET_users_id => Some (FindByIDUserHandler e w r)
  | PUT_users_id => Some (UpdateUserHandler e w r)
  | DELETE_users_id => Some (DeleteUserHandler e w r)
  end.

End Handlers.

(** ** Runs of calls on the store *)

(** Calls on the store, for runs of several of them.  [FindAll] and
    [FindByID] hand their result to the caller and leave the state as it
    is. *)
Inductive Call :=
| CallInsert (user : User)
| CallFindAll
| CallFindByID (id : ID)
| CallUpdate (id : ID) (user : User)
| CallDelete (id : ID).

(** [Update(id, _)] and [Delete(id)]. *)
Definition writes (id : ID) (c : Call) : bool :=
  match c with
  | CallUpdate id' _ | CallDelete id' => bool_decide (id' = id)
  | _ => false
  end.

Section Runs.

Variable rander : nat -> N.

Definition call (fuel : nat) (st : application * nat) (c : Call)
  : option (application * nat) :=
  match c with
  | CallInsert user =>
      match Insert rander fuel (fst st) (snd st) user with
      | Some (a, n, _) => Some (a, n)
      | None => None
      end
  | CallFindAll => Some st
  | CallFindByID _ => Some st
  | CallUpdate id user => Some (Update (fst st) id user, snd st)
  | CallDelete id => Some (Delete (fst st) id, snd st)
  end.

Fixpoint calls (fuel : nat) (st : application * nat) (cs : list Call)
  : option (application * nat) :=
  match cs with
  | [] => Some st
  | c :: cs' =>
      match call fuel st c with
      | Some st' => calls fuel st' cs'
      | None => None
      end
  end.

End Runs.

(** ** Replies, written out *)

(** JSON text written with ['] where the text has a double quote. *)
Fixpoint js (s : string) : string :=
  match s with
  | EmptyString => EmptyString
  | String c s' =>
      String (if Ascii.eqb c "'" then "034"%char else c) (js s')
  end.

(** The JSON reply [sendJSON] leaves in a fresh writer. *)
Definition jsonReply (status : Z) (body : string) : http.ResponseWriter :=
  http.mkResponseWriter {[ "Content-Type" := "application/json" ]} true
    status body.

(** The plain-text reply of [http.Error] in a fresh writer. *)
Definition textReply (status : Z) (body : string) : http.ResponseWriter :=
  http.mkResponseWriter
    (<[ "X-Content-Type-Options" := "nosniff" ]>
       {[ "Content-Type" := "text/plain; charset=utf-8" ]})
    true status body.

(** No member of the object is decoded into the field called [name]. *)
Definition omits (name : string) (members : list (string * json.Value))
  : Prop :=
  Forall (fun m => json.foldName 0 (fst m) <> json.foldName 0 name) members.

(** The encoding of a [UserResponse], written out. *)
Definition userJSON (id : string) (u : User) : string :=
  js "{'id':" +:+ json.encodeString id
  +:+ js ",'first_name':" +:+ json.encodeString (FirstName u)
  +:+ js ",'last_name':" +:+ json.encodeString (LastName u)
  +:+ js ",'biography':" +:+ json.encodeString (Biography u) +:+ "}".

(** ** Inputs for the worked cases *)

(** An entropy source that delivers block
    [n] at its [n]-th read, the identifier made from block [0], and a store
    that holds one record under it. *)
Definition counter : nat -> N := N.of_nat.

Definition id0 : ID := uuid.NewRandomFrom 0.

Definition ada : User := mkUser "Ada" "Lovelace" "mathematician".

Definition oneUser : Env := mkEnv (NewApplication {[ id0 := ada ]}) 1 [].

Definition noUsers : Env := mkEnv (NewApplication ∅) 0 [].

(** [{}] as a request body, for the identifier in the path. *)
Definition emptyObjectFor (rawID : string) : Request :=
  mkRequest rawID (Some (json.Object [])).

Definition grace : User := mkUser "Grace" "Hopper" "admiral".

(** A run after the insertion of [ada]: a second and a third record are
    inserted, the second is replaced, absent keys are updated and deleted. *)
Definition laterCalls : list Call :=
  [ CallInsert grace; CallFindAll; CallUpdate (uuid.NewRandomFrom 1) ada;
    CallFindByID id0; CallDelete (uuid.NewRandomFrom 7); CallInsert grace;
    CallUpdate (uuid.NewRandomFrom 9) grace ].

Definition laterStore : application :=
  NewApplication
    (<[uuid.NewRandomFrom 2 := grace]>
       (<[uuid.NewRandomFrom 1 := ada]> {[ id0 := ada ]})).



(** ** The server: requests through the router *)

(** The statuses a route answers with. *)
Definition statuses (route : Route) : list Z :=
  match route with
  | POST_users => [201; 400]
  | GET_users => [200]
  | GET_users_id => [200; 400; 404]
  | PUT_users_id => [204; 400; 404]
  | DELETE_users_id => [204; 400; 404]
  end%Z.

Section Server.

Variable rander : nat -> N.

(** One request through [NewHandler], into a fresh writer.  [order] is
    the order of the [range] loop, should the request run one. *)
Definition serve (fuel : nat) (order : nat -> nat) (e : Env)
  (q : Route * Request) : option (Env * http.ResponseWriter) :=
  NewHandler rander (fst q) fuel order e http.fresh (snd q).

(** Requests one after the other, the replies in their order;
    [orders i] is the order of the [range] loop of request [i]. *)
Fixpoint serveAll (fuel : nat) (orders : nat -> nat -> nat) (e : Env)
  (qs : list (Route * Request))
  : option (Env * list http.ResponseWriter) :=
  match qs with
  | [] => Some (e, [])
  | q :: qs' =>
      match serve fuel (orders 0) e q with
      | None => None
      | Some (e', w) =>
          match serveAll fuel (fun i => orders (S i)) e' qs' with
          | None => None
          | Some (e'', ws) => Some (e'', w :: ws)
          end
      end
  end.

End Server.

(** Every key was made by [uuid.New] out of one of the first [n] blocks. *)
Definition issued (rander : nat -> N) (n : nat) (a : application) : Prop :=
  forall id, is_Some (data a !! id) -> exists j, j < n /\ id = uuid_New rander j.

(** The element [FindAllUsersHandler] appends for an entry of the map. *)
Definition listed (entry : ID * User) : UserResponse :=
  mkUserResponse (ID_String (fst entry)) (FirstName (snd entry))
    (LastName (snd entry)) (Biography (snd entry)).

(** The body [http.Error] writes for an invalid identifier. *)
Definition notValid : string :=
  String.append "UUID not valid" (String "010" EmptyString).

(** The key of a member names a field of [User]. *)
Definition namesField (m : string * json.Value) : bool :=
  let name := json.foldName 0 (fst m) in
  String.eqb name "FIRST_NAME" || String.eqb name "LAST_NAME"
  || String.eqb name "BIOGRAPHY".

(** A member that names a field and holds neither a string nor [null]. *)
Definition mistyped (m : string * json.Value) : bool :=
  namesField m
  && match snd m with
     | json.Str _ | json.Null => false
     | _ => true
     end.

(** What the members of a body give the field with the folded name
    [NAME]: the string of the last member that names the field and holds
    a string, and [v] when there is none. *)
Fixpoint given (NAME : string) (members : list (string * json.Value))
  (v : string) : string :=
  match members with
  | [] => v
  | m :: members' =>
      given NAME members'
        (if String.eqb (json.foldName 0 (fst m)) NAME
         then match snd m with
              | json.Str s => s
              | _ => v
              end
         else v)
  end.

(** The bodies that are decodable as a [User]: [null], and an object
    that gives none of the three fields a value other than a string or
    [null]. *)
Definition decodable (r : Request) : bool :=
  match Body r with
  | Some json.Null => true
  | Some (json.Object members) => negb (existsb mistyped members)
  | _ => false
  end.

(** What a decodable body is decoded to in [var body User]. *)
Definition decoded (r : Request) : User :=
  match Body r with
  | Some (json.Object members) =>
      mkUser (given "FIRST_NAME" members "") (given "LAST_NAME" members "")
        (given "BIOGRAPHY" members "")
  | _ => User_zero
  end.

(** ** Identifiers of version 4 *)




(** ** Further inputs for the worked cases *)

(** The string forms of the identifiers made from blocks [0] and [1],
    requests that carry them, and a run of three requests with its
    replies. *)
Definition raw0 : string := "00000000-0000-4000-8000-000000000000".

Definition raw1 : string := "00000000-0000-4000-8000-000000000001".

Definition userObject (u : User) : json.Value :=
  json.Object [ ("first_name", json.Str (FirstName u));
                ("last_name", json.Str (LastName u));
                ("biography", json.Str (Biography u)) ].

Definition requestWith (rawID : string) (u : User) : Request :=
  mkRequest rawID (Some (userObject u)).

Definition stillWriting : list string :=
  ["failed to write response to client."].

Definition createdAda : http.ResponseWriter :=
  jsonReply 201
    (js "{'data':{'id':'00000000-0000-4000-8000-000000000000','first_name':'Ada','last_name':'Lovelace','biography':'mathematician'}}").

Definition threeRequests : list (Route * Request) :=
  [ (POST_users, requestWith "" ada);
    (GET_users, mkRequest "" None);
    (DELETE_users_id, mkRequest raw0 None) ].

Definition threeReplies : list http.ResponseWriter :=
  [ createdAda;
    jsonReply 200
      (js "{'data':[{'id':'00000000-0000-4000-8000-000000000000','first_name':'Ada','last_name':'Lovelace','biography':'mathematician'}]}");
    jsonReply 204 "" ].

Definition twoUsers : application :=
  NewApplication (<[uuid.NewRandomFrom 1 := grace]> {[ id0 := ada ]}).

(** The identifier made from block [0] as thirty-two bare digits. *)
Definition bare0 : string := "00000000000040008000000000000000".

(** The state once the one record was deleted again: no record, one block
    read, and the line the 204 leaves in the log. *)
Definition emptied : Env := mkEnv (NewApplication ∅) 1 stillWriting.

(** Bodies that give some of the fields only. *)
Definition firstNameOnly : Request :=
  mkRequest "" (Some (json.Object [ ("first_name", json.Str "Grace") ])).

Definition mixedMembers : Request :=
  mkRequest ""
    (Some (json.Object [ ("first_name", json.Str "Ada");
                         ("age", json.Number "36");
                         ("LAST_NAME", json.Str "Hopper");
                         ("biography", json.Null);
                         ("First_Name", json.Str "Grace") ])).

Definition numberForName : Request :=
  mkRequest raw0 (Some (json.Object [ ("first_name", json.Number "1") ])).

Definition withNickname : list (string * json.Value) :=
  [ ("nickname", json.Str "countess"); ("First_Name", json.Str "Ada") ].

(** * Properties of the store *)

Section StoreFacts.

Implicit Types (a : application) (id : ID) (user u : User).

Lemma has_true a id : has a id = true <-> is_Some (data a !! id).
Proof. unfold has. apply bool_decide_eq_true. Qed.

Lemma has_false a id : has a id = false <-> data a !! id = None.
Proof.
  unfold has. rewrite bool_decide_eq_false. symmetry. apply eq_None_not_Some.
Qed.

Lemma FindByID_lookup a id : FindByID a id = data a !! id.
Proof. unfold FindByID. by destruct (data a !! id). Qed.

Lemma Update_absent a id user :
  data a !! id = None -> Update a id user = a.
Proof. intros H. unfold Update. apply has_false in H. by rewrite H. Qed.

Lemma Update_present a id user :
  is_Some (data a !! id) ->
  Update a id user = mkApplication (<[id := user]> (data a)).
Proof. intros H. unfold Update. apply has_true in H. by rewrite H. Qed.

Lemma Delete_absent a id : data a !! id = None -> Delete a id = a.
Proof. intros H. unfold Delete. apply has_false in H. by rewrite H. Qed.

Lemma Delete_present a id :
  is_Some (data a !! id) ->
  Delete a id = mkApplication (delete id (data a)).
Proof. intros H. unfold Delete. apply has_true in H. by rewrite H. Qed.

Lemma Update_other a id user k :
  k <> id -> data (Update a id user) !! k = data a !! k.
Proof.
  intros Hk. unfold Update. destruct (has a id); cbn; [|done].
  by apply lookup_insert_ne.
Qed.

Lemma Delete_other a id k :
  k <> id -> data (Delete a id) !! k = data a !! k.
Proof.
  intros Hk. unfold Delete. destruct (has a id); cbn; [|done].
  by apply lookup_delete_ne.
Qed.

Lemma Delete_gone a id : FindByID (Delete a id) id = None.
Proof.
  rewrite FindByID_lookup. unfold Delete.
  destruct (has a id) eqn:H; cbn.
  - apply lookup_delete_eq.
  - by apply has_false.
Qed.

Lemma Update_found a id user :
  is_Some (data a !! id) -> FindByID (Update a id user) id = Some user.
Proof.
  intros H. rewrite FindByID_lookup, Update_present by done. cbn.
  apply lookup_insert_eq.
Qed.

End StoreFacts.

(** * Identifiers and their string form *)

Module uuid_facts.
Import uuid.

Local Open Scope N_scope.
Local Open Scope list_scope.

Lemma byteAt_lt u i : byteAt u i < 256.
Proof. unfold byteAt. apply N.mod_lt. lia. Qed.

Lemma bytes_lt u : Forall (fun b => b < 256) (bytes u).
Proof.
  unfold bytes. apply Forall_map, Forall_forall. intros i _. apply byteAt_lt.
Qed.

Lemma bytes_length u : List.length (bytes u) = 16%nat.
Proof. reflexivity. Qed.

Lemma ofBytes_snoc bs b : ofBytes (bs ++ [b]) = ofBytes bs * 256 + b.
Proof. unfold ofBytes. by rewrite fold_left_app. Qed.

(** The first [k] bytes of [u] spell its [k] leading base-256 digits. *)
Lemma ofBytes_prefix u k :
  (k <= 16)%nat ->
  ofBytes (map (byteAt u) (seq 0 k)) = (u / 256 ^ N.of_nat (16 - k)) mod 256 ^ N.of_nat k.
Proof.
  induction k as [|k IH]; intros Hk.
  - cbn. by rewrite N.mod_1_r.
  - rewrite seq_S, map_app. cbn [map Nat.add].
    rewrite ofBytes_snoc, IH by lia.
    unfold byteAt.
    replace (15 - k)%nat with (16 - S k)%nat by lia.
    set (q := u / 256 ^ N.of_nat (16 - S k)).
    replace (u / 256 ^ N.of_nat (16 - k)) with (q / 256).
    2:{ unfold q. rewrite N.Div0.div_div. f_equal. replace (16 - k)%nat with (S (16 - S k)) by lia.
        rewrite Nat2N.inj_succ, N.pow_succ_r'. lia. }
    rewrite Nat2N.inj_succ, N.pow_succ_r'.
    set (m := 256 ^ N.of_nat k).
    assert (Hm : m <> 0) by (apply N.pow_nonzero; lia).
    rewrite (N.Div0.mod_mul_r q 256 m).
    rewrite (N.mul_comm 256 ((q / 256) mod m)). lia.
Qed.

Lemma ofBytes_bytes u : wf u -> ofBytes (bytes u) = u.
Proof.
  intros Hu. unfold bytes. rewrite ofBytes_prefix by lia.
  cbn [Nat.sub N.of_nat]. rewrite N.pow_0_r, N.div_1_r.
  apply N.mod_small. exact Hu.
Qed.

Lemma ofBytes_lt bs :
  Forall (fun b => b < 256) bs -> ofBytes bs < 256 ^ N.of_nat (List.length bs).
Proof.
  induction bs as [|b bs IH] using rev_ind; intros H.
  - cbn. lia.
  - apply Forall_app in H as [H1 H2]. apply Forall_cons in H2 as [Hb _].
    rewrite ofBytes_snoc, length_app. cbn [List.length].
    replace (List.length bs + 1)%nat with (S (List.length bs)) by lia.
    rewrite Nat2N.inj_succ, N.pow_succ_r'. specialize (IH H1). nia.
Qed.

Lemma xvalue_hexDigit d : d < 16 -> xvalue (hexDigit d) = Some d.
Proof.
  intros H.
  assert (d = 0 \/ d = 1 \/ d = 2 \/ d = 3 \/ d = 4 \/ d = 5 \/ d = 6
          \/ d = 7 \/ d = 8 \/ d = 9 \/ d = 10 \/ d = 11 \/ d = 12
          \/ d = 13 \/ d = 14 \/ d = 15) as Hd by lia.
  repeat (destruct Hd as [-> | Hd]; [reflexivity|]). by subst.
Qed.

Lemma xtob_hexByte b rest :
  b < 256 ->
  exists x1 x2, hexByte b rest = String.String x1 (String.String x2 rest)
                /\ xtob x1 x2 = Some b.
Proof.
  intros Hb. eexists _, _. split; [reflexivity|].
  unfold xtob. rewrite !xvalue_hexDigit.
  - f_equal. pose proof (N.div_mod b 16). lia.
  - apply N.mod_lt. lia.
  - apply N.Div0.div_lt_upper_bound. lia.
Qed.

Lemma readBytes_hexBytes bs rest :
  Forall (fun b => b < 256) bs ->
  readBytes (List.length bs) (hexBytes bs rest) = Some (bs, rest).
Proof.
  induction 1 as [|b bs Hb _ IH]; [reflexivity|].
  cbn [List.length hexBytes].
  destruct (xtob_hexByte b (hexBytes bs rest) Hb) as (x1 & x2 & -> & Hx).
  cbn [readBytes]. by rewrite Hx, IH.
Qed.

Lemma readBytes_hexBytes_n n bs rest :
  List.length bs = n -> Forall (fun b => b < 256) bs ->
  readBytes n (hexBytes bs rest) = Some (bs, rest).
Proof. intros <-. apply readBytes_hexBytes. Qed.

Lemma hexBytes_length bs rest :
  String.length (hexBytes bs rest)
  = (2 * List.length bs + String.length rest)%nat.
Proof.
  induction bs as [|b bs IH]; [reflexivity|].
  cbn [hexBytes hexByte String.length List.length]. rewrite IH. lia.
Qed.

Ltac sixteen bs :=
  do 16 (destruct bs as [|? bs]; [discriminate|]);
  destruct bs; [|discriminate].

Lemma format_length bs :
  List.length bs = 16%nat -> String.length (format bs) = 36%nat.
Proof.
  intros Hlen. sixteen bs. unfold format. cbn [firstn skipn].
  repeat (rewrite hexBytes_length; cbn [String.length List.length]).
  reflexivity.
Qed.

Lemma parseDashed_format bs :
  List.length bs = 16%nat -> Forall (fun b => b < 256) bs ->
  parseDashed (format bs) = Some (ofBytes bs).
Proof.
  intros Hlen Hbs. sixteen bs. unfold format, parseDashed.
  cbn [firstn skipn].
  repeat match goal with
         | H : Forall _ (_ :: _) |- _ => apply Forall_cons in H as [? H]
         end.
  rewrite (readBytes_hexBytes_n 4) by (repeat constructor; assumption).
  cbn [mbind option_bind dash].
  rewrite (readBytes_hexBytes_n 2) by (repeat constructor; assumption).
  cbn [mbind option_bind dash].
  rewrite (readBytes_hexBytes_n 2) by (repeat constructor; assumption).
  cbn [mbind option_bind dash].
  rewrite (readBytes_hexBytes_n 2) by (repeat constructor; assumption).
  cbn [mbind option_bind dash].
  rewrite (readBytes_hexBytes_n 6) by (repeat constructor; assumption).
  reflexivity.
Qed.

(** The string form of an identifier parses back to the identifier. *)
Lemma Parse_String u : wf u -> Parse (String u) = Some u.
Proof.
  intros Hu. unfold Parse, String.
  rewrite format_length by apply bytes_length.
  rewrite parseDashed_format by (apply bytes_length || apply bytes_lt).
  by rewrite ofBytes_bytes.
Qed.

Lemma lor_land_lt b m c : m < 256 -> c < 256 -> N.lor (N.land b m) c < 256.
Proof.
  intros Hm Hc. pose proof (N.land_le_r b m) as Hx.
  set (x := N.land b m) in *.
  destruct (N.eq_dec (N.lor x c) 0) as [->|Hnz]; [lia|].
  change 256 with (2 ^ 8). apply N.log2_lt_pow2; [lia|].
  rewrite N.log2_lor. apply N.max_lub_lt.
  - destruct (N.eq_dec x 0) as [->|Hx0]; [cbn; lia|].
    apply N.log2_lt_pow2; cbn; lia.
  - destruct (N.eq_dec c 0) as [->|Hc0]; [cbn; lia|].
    apply N.log2_lt_pow2; cbn; lia.
Qed.

Lemma setByte_wf u i f : (forall b, b < 256 -> f b < 256) -> wf (setByte u i f).
Proof.
  intros Hf. unfold wf, setByte.
  change (2 ^ 128) with (256 ^ N.of_nat 16).
  eapply N.lt_le_trans; [apply ofBytes_lt|].
  - apply Forall_map, Forall_forall. intros j _.
    destruct (Nat.eqb j i); [apply Hf|]; apply byteAt_lt.
  - by rewrite length_map, length_seq.
Qed.

Lemma NewRandomFrom_wf block : wf (NewRandomFrom block).
Proof.
  unfold NewRandomFrom. apply setByte_wf. intros b _.
  apply lor_land_lt; lia.
Qed.

Lemma ofBytes_app xs ys :
  ofBytes (xs ++ ys) = ofBytes xs * 256 ^ N.of_nat (List.length ys) + ofBytes ys.
Proof.
  induction ys as [|b ys IH] using rev_ind.
  - rewrite app_nil_r. cbn. lia.
  - rewrite app_assoc, !ofBytes_snoc, IH, length_app. cbn [List.length].
    replace (List.length ys + 1)%nat with (S (List.length ys)) by lia.
    rewrite Nat2N.inj_succ, N.pow_succ_r'. lia.
Qed.

Lemma byteAt_ofBytes j pre b post :
  List.length pre = j ->
  List.length (pre ++ b :: post) = 16%nat ->
  b < 256 -> Forall (fun x => x < 256) post ->
  byteAt (ofBytes (pre ++ b :: post)) j = b.
Proof.
  intros <- Hlen Hb Hpost. unfold byteAt.
  rewrite length_app in Hlen. cbn [List.length] in Hlen.
  replace (15 - List.length pre)%nat with (List.length post) by lia.
  replace (pre ++ b :: post) with ((pre ++ [b]) ++ post)
    by (by rewrite <- app_assoc).
  rewrite ofBytes_app, ofBytes_snoc.
  pose proof (ofBytes_lt post Hpost) as Hlt.
  set (m := 256 ^ N.of_nat (List.length post)) in *.
  assert (Hm : m <> 0) by (apply N.pow_nonzero; lia).
  rewrite N.div_add_l by done. rewrite (N.div_small _ _ Hlt), N.add_0_r.
  rewrite N.add_comm, N.Div0.mod_add. by apply N.mod_small.
Qed.

Lemma byteAt_setByte u i f j :
  (j < 16)%nat -> (forall b, b < 256 -> f b < 256) ->
  byteAt (setByte u i f) j = if Nat.eqb j i then f (byteAt u j) else byteAt u j.
Proof.
  intros Hj Hf. unfold setByte.
  set (g := fun j => if Nat.eqb j i then f (byteAt u j) else byteAt u j).
  assert (Hg : forall k, g k < 256).
  { intros k. unfold g. destruct (Nat.eqb k i); [apply Hf|]; apply byteAt_lt. }
  replace (seq 0 16) with (seq 0 j ++ j :: seq (S j) (15 - j)).
  2:{ replace 16%nat with (j + S (15 - j))%nat by lia.
      by rewrite seq_app. }
  rewrite map_app. cbn [map].
  apply byteAt_ofBytes.
  - by rewrite length_map, length_seq.
  - rewrite length_app. cbn [List.length]. rewrite !length_map, !length_seq. lia.
  - apply Hg.
  - apply Forall_map, Forall_forall. intros k _. apply Hg.
Qed.

Lemma version_bits x : N.lor (N.land x 15) 64 / 16 = 4.
Proof.
  change 16 with (2 ^ 4). rewrite <- N.shiftr_div_pow2.
  rewrite N.shiftr_lor, N.shiftr_land. change (N.shiftr 15 4) with 0.
  by rewrite N.land_0_r.
Qed.

Lemma variant_bits x : N.lor (N.land x 63) 128 / 64 = 2.
Proof.
  change 64 with (2 ^ 6). rewrite <- N.shiftr_div_pow2.
  rewrite N.shiftr_lor, N.shiftr_land. change (N.shiftr 63 6) with 0.
  by rewrite N.land_0_r.
Qed.

Lemma NewRandomFrom_version block :
  byteAt (NewRandomFrom block) 6 / 16 = 4
  /\ byteAt (NewRandomFrom block) 8 / 64 = 2.
Proof.
  unfold NewRandomFrom.
  assert (H6 : forall b, b < 256 -> N.lor (N.land b 15) 64 < 256)
    by (intros; apply lor_land_lt; lia).
  assert (H8 : forall b, b < 256 -> N.lor (N.land b 63) 128 < 256)
    by (intros; apply lor_land_lt; lia).
  split.
  - rewrite byteAt_setByte by (done || lia). cbn [Nat.eqb].
    rewrite byteAt_setByte by (done || lia). cbn [Nat.eqb].
    apply version_bits.
  - rewrite byteAt_setByte by (done || lia). cbn [Nat.eqb].
    apply variant_bits.
Qed.

Lemma NewRandomFrom_isV4 block : isV4 (NewRandomFrom block) = true.
Proof.
  unfold isV4. destruct (NewRandomFrom_version block) as [-> ->].
  reflexivity.
Qed.

Lemma String_inj u v : wf u -> wf v -> String u = String v -> u = v.
Proof.
  intros Hu Hv H. apply Parse_String in Hu, Hv. rewrite H in Hu. congruence.
Qed.

End uuid_facts.

(** * The retry loop of [Insert] *)

Section RetryFacts.

Variable rander : nat -> N.

Implicit Types (a : application) (id : ID) (user u : User).

(** The loop leaves at the first draw that is not a key. *)
Lemma retry_first_free a k : forall n fuel,
  (forall j, j < k -> has a (uuid_New rander (n + j)) = true) ->
  has a (uuid_New rander (n + k)) = false ->
  k <= fuel ->
  retry rander fuel a (S n) (uuid_New rander n)
  = Some (uuid_New rander (n + k), S (n + k)).
Proof.
  induction k as [|k IH]; intros n fuel Hbusy Hfree Hfuel.
  - rewrite Nat.add_0_r in *. destruct fuel; cbn [retry]; by rewrite Hfree.
  - destruct fuel as [|fuel]; [lia|]. cbn [retry].
    pose proof (Hbusy 0 ltac:(lia)) as H0. rewrite Nat.add_0_r in H0.
    rewrite H0. rewrite <- Nat.add_succ_comm in *.
    apply IH; [|done|lia].
    intros j Hj. rewrite Nat.add_succ_comm. apply Hbusy. lia.
Qed.

(** Whatever the loop returns is the first free draw. *)
Lemma retry_Some a fuel : forall n id n',
  retry rander fuel a (S n) (uuid_New rander n) = Some (id, n') ->
  exists k, k <= fuel /\ id = uuid_New rander (n + k) /\ n' = S (n + k)
    /\ (forall j, j < k -> has a (uuid_New rander (n + j)) = true)
    /\ has a id = false.
Proof.
  induction fuel as [|fuel IH]; intros n id n' H; cbn [retry] in H.
  - destruct (has a (uuid_New rander n)) eqn:E; [done|]. inversion H; subst.
    exists 0. rewrite Nat.add_0_r. repeat split; [lia|lia|done].
  - destruct (has a (uuid_New rander n)) eqn:E.
    + apply IH in H as (k & Hk & -> & -> & Hbusy & Hfree).
      exists (S k). rewrite <- Nat.add_succ_comm. repeat split; [lia|..|done].
      intros [|j] Hj; [by rewrite Nat.add_0_r|].
      rewrite <- Nat.add_succ_comm. apply Hbusy. lia.
    + inversion H; subst. exists 0. rewrite Nat.add_0_r.
      repeat split; [lia|lia|done].
Qed.

(** While every draw is a key the loop goes on. *)
Lemma retry_busy a fuel : forall n,
  (forall j, j <= fuel -> has a (uuid_New rander (n + j)) = true) ->
  retry rander fuel a (S n) (uuid_New rander n) = None.
Proof.
  induction fuel as [|fuel IH]; intros n Hbusy; cbn [retry].
  - pose proof (Hbusy 0 ltac:(lia)) as H0. rewrite Nat.add_0_r in H0.
    by rewrite H0.
  - pose proof (Hbusy 0 ltac:(lia)) as H0. rewrite Nat.add_0_r in H0.
    rewrite H0. apply IH. intros j Hj.
    rewrite Nat.add_succ_comm. apply Hbusy. lia.
Qed.



(** [Insert] returns once the loop has left: the record goes under the
    first free draw. *)
Lemma Insert_first_free a n u k fuel :
  (forall j, j < k -> has a (uuid_New rander (n + j)) = true) ->
  has a (uuid_New rander (n + k)) = false ->
  k <= fuel ->
  Insert rander fuel a n u
  = Some (mkApplication (<[uuid_New rander (n + k) := u]> (data a)),
          S (n + k), (u, ID_String (uuid_New rander (n + k)))).
Proof.
  intros Hbusy Hfree Hfuel. unfold Insert.
  rewrite (retry_first_free a k n fuel Hbusy Hfree Hfuel).
  unfold index. cbn [data]. by rewrite lookup_insert_eq.
Qed.

Lemma Insert_Some a n u fuel a' n' stored s :
  Insert rander fuel a n u = Some (a', n', (stored, s)) ->
  exists k, k <= fuel
    /\ (forall j, j < k -> has a (uuid_New rander (n + j)) = true)
    /\ has a (uuid_New rander (n + k)) = false
    /\ a' = mkApplication (<[uuid_New rander (n + k) := u]> (data a))
    /\ n' = S (n + k) /\ stored = u
    /\ s = ID_String (uuid_New rander (n + k)).
Proof.
  intros H. unfold Insert in H.
  destruct (retry rander fuel a (S n) (uuid_New rander n)) as [[id m]|] eqn:E;
    [|done].
  apply retry_Some in E as (k & Hk & -> & -> & Hbusy & Hfree).
  exists k. unfold index in H. cbn [data] in H.
  rewrite lookup_insert_eq in H. cbn [default] in H.
  remember (ID_String (uuid_New rander (n + k))) as s0 eqn:Hs0.
  remember (<[uuid_New rander (n + k) := u]> (data a)) as m0 eqn:Hm0.
  inversion H; subst. by repeat split.
Qed.

Lemma Insert_busy a n u fuel :
  (forall j, j <= fuel -> has a (uuid_New rander (n + j)) = true) ->
  Insert rander fuel a n u = None.
Proof. intros H. unfold Insert. by rewrite retry_busy. Qed.


(** A record stays where it is through calls that do not write its key. *)
Lemma call_keeps fuel st st' c id u :
  writes id c = false ->
  data (fst st) !! id = Some u ->
  call rander fuel st c = Some st' ->
  data (fst st') !! id = Some u.
Proof.
  intros Hw Hu Hc. destruct st as [a n], c as [user| |id'|id' user|id'];
    cbn [call fst snd writes] in *.
  - destruct (Insert rander fuel a n user) as [[[a' n'] [stored s]]|] eqn:E;
      [|done].
    inversion Hc; subst. cbn [fst].
    apply Insert_Some in E as (k & _ & _ & Hfree & -> & _).
    cbn [data]. rewrite lookup_insert_ne; [done|].
    intros <-. apply has_false in Hfree. congruence.
  - by inversion Hc; subst.
  - by inversion Hc; subst.
  - inversion Hc; subst. cbn [fst]. rewrite Update_other; [done|].
    apply bool_decide_eq_false in Hw. congruence.
  - inversion Hc; subst. cbn [fst]. rewrite Delete_other; [done|].
    apply bool_decide_eq_false in Hw. congruence.
Qed.

Lemma calls_keep fuel cs : forall st st' id u,
  Forall (fun c => writes id c = false) cs ->
  data (fst st) !! id = Some u ->
  calls rander fuel st cs = Some st' ->
  data (fst st') !! id = Some u.
Proof.
  induction cs as [|c cs IH]; intros st st' id u Hcs Hu H; cbn [calls] in H.
  - by inversion H; subst.
  - apply Forall_cons in Hcs as [Hc Hcs].
    destruct (call rander fuel st c) as [st1|] eqn:E; [|done].
    eapply IH; [done| |done]. by eapply call_keeps.
Qed.

End RetryFacts.

(** * The identifiers [uuid.New] can deliver *)

Section Drawn.







End Drawn.

(** * Responses *)

Section ResponseFacts.

Implicit Types (e : Env) (w : http.ResponseWriter) (resp : Response).

(** [js] at work: the eleven bytes of [{"data":[]}]. *)
Example js_data :
  js "{'data':[]}"
  = String "{" (String "034" ("data" +:+ String "034" ":[]}")).
Proof. reflexivity. Qed.

Lemma sendJSON_ok e w resp status out :
  json_Marshal resp = inl out ->
  sendJSON e w resp status =
    let w := http.Header_Set w "Content-Type" "application/json" in
    let w := http.WriteHeader w status in
    match http.Write w out with
    | (w, false) => (slog_Error e "failed to write response to client.", w)
    | (w, true) => (e, w)
    end.
Proof.
  intros H. funelim (sendJSON e w resp status); [|congruence].
  match goal with
  | H' : json_Marshal resp = inl ?d |- _ =>
      assert (out = d) as <- by congruence
  end.
  reflexivity.
Qed.

Lemma sendJSON_error e w resp status err :
  json_Marshal resp = inr err ->
  sendJSON e w resp status =
    sendJSON (slog_Error e "failed to marshal JSON data.")
      (http.Header_Set w "Content-Type" "application/json")
      somethingWentWrong http.StatusInternalServerError.
Proof.
  intros H. funelim (sendJSON e w resp status); [congruence|reflexivity].
Qed.

(** Into a fresh writer: the status asked for, and the encoded envelope as
    body when the status allows one. *)
Lemma sendJSON_fresh e resp status out :
  json_Marshal resp = inl out -> out <> "" ->
  sendJSON e http.fresh resp status =
    if http.bodyAllowedForStatus status
    then (e, jsonReply status out)
    else (slog_Error e "failed to write response to client.",
          jsonReply status "").
Proof.
  intros H Hne. rewrite (sendJSON_ok _ _ _ _ _ H).
  unfold http.Write, http.WriteHeader, http.Header_Set, http.fresh, jsonReply.
  cbn [http.wroteHeader http.status http.Header http.body].
  destruct out as [|c out]; [done|]. cbn [String.length Nat.eqb].
  rewrite insert_empty.
  by destruct (http.bodyAllowedForStatus status).
Qed.

Lemma json_Marshal_error_only msg :
  msg <> "" ->
  json_Marshal (mkResponse msg any_nil)
  = inl (js "{'error':" +:+ json.encodeString msg +:+ "}").
Proof.
  intros H. unfold json_Marshal. cbn [Error Data].
  destruct (String.eqb_spec msg ""); [done|]. reflexivity.
Qed.

Lemma provideFields_nonempty : provideFields <> "".
Proof. discriminate. Qed.

Lemma doesNotExist_nonempty : doesNotExist <> "".
Proof. discriminate. Qed.

(** The three envelopes the handlers send with no user data in them. *)
Lemma sendJSON_provideFields e :
  sendJSON e http.fresh (mkResponse provideFields any_nil) http.StatusBadRequest
  = (e, jsonReply 400
          (js "{'error':'Please provide FirstName LastName and bio for the user'}")).
Proof.
  rewrite (sendJSON_fresh _ _ _ _ (json_Marshal_error_only _ provideFields_nonempty)).
  - reflexivity.
  - discriminate.
Qed.

Lemma sendJSON_doesNotExist e :
  sendJSON e http.fresh (mkResponse doesNotExist any_nil) http.StatusNotFound
  = (e, jsonReply 404
          (js "{'error':'The user with the specified ID does not exist.'}")).
Proof.
  rewrite (sendJSON_fresh _ _ _ _ (json_Marshal_error_only _ doesNotExist_nonempty)).
  - reflexivity.
  - discriminate.
Qed.

(** With status 204 the encoded envelope, [{}], is handed to [Write] and
    refused: the reply has no body and the failure is logged. *)
Lemma sendJSON_NoContent e :
  sendJSON e http.fresh (mkResponse "" any_nil) http.StatusNoContent
  = (slog_Error e "failed to write response to client.", jsonReply 204 "").
Proof. by rewrite (sendJSON_fresh _ _ _ "{}"). Qed.

Lemma Error_fresh msg status :
  http.bodyAllowedForStatus status = true ->
  http.Error http.fresh msg status
  = textReply status (msg +:+ String "010" EmptyString).
Proof.
  intros H. unfold http.Error, http.Write, http.WriteHeader, http.Header_Set.
  cbn [http.wroteHeader http.status http.Header http.body http.fresh fst].
  replace (String.length (msg +:+ String "010" EmptyString) =? 0)%nat
    with false.
  2:{ symmetry. apply Nat.eqb_neq.
      destruct msg; simpl; lia. }
  rewrite H. cbn [negb fst]. unfold textReply. by rewrite insert_empty.
Qed.

End ResponseFacts.

(** * The handlers, case by case *)

Section HandlerFacts.

Implicit Types (e : Env) (r : Request) (id : ID) (body : User).

Lemma FindByIDUserHandler_invalid e r :
  uuid.Parse (URLParam_id r) = None ->
  FindByIDUserHandler e http.fresh r
  = (e, textReply 400 (String.append "UUID not valid" (String "010" EmptyString))).
Proof.
  intros H. unfold FindByIDUserHandler. rewrite H.
  by rewrite Error_fresh.
Qed.

Lemma UpdateUserHandler_undecodable e r :
  Decode r User_zero = None ->
  UpdateUserHandler e http.fresh r
  = (e, jsonReply 400
          (js "{'error':'Please provide FirstName LastName and bio for the user'}")).
Proof.
  intros H. unfold UpdateUserHandler. rewrite H. apply sendJSON_provideFields.
Qed.

Lemma UpdateUserHandler_invalid e r body :
  Decode r User_zero = Some body ->
  uuid.Parse (URLParam_id r) = None ->
  UpdateUserHandler e http.fresh r
  = (e, textReply 400 (String.append "UUID not valid" (String "010" EmptyString))).
Proof.
  intros Hb Hid. unfold UpdateUserHandler. rewrite Hb, Hid.
  by rewrite Error_fresh.
Qed.

Lemma UpdateUserHandler_absent e r body id :
  Decode r User_zero = Some body ->
  uuid.Parse (URLParam_id r) = Some id ->
  data (db e) !! id = None ->
  UpdateUserHandler e http.fresh r
  = (e, jsonReply 404
          (js "{'error':'The user with the specified ID does not exist.'}")).
Proof.
  intros Hb Hid Hnone. unfold UpdateUserHandler.
  rewrite Hb, Hid, FindByID_lookup, Hnone. apply sendJSON_doesNotExist.
Qed.

Lemma UpdateUserHandler_present e r body id :
  Decode r User_zero = Some body ->
  uuid.Parse (URLParam_id r) = Some id ->
  is_Some (data (db e) !! id) ->
  UpdateUserHandler e http.fresh r
  = (mkEnv (mkApplication (<[id := body]> (data (db e)))) (reads e)
       (logs e ++ ["failed to write response to client."]),
     jsonReply 204 "").
Proof.
  intros Hb Hid Hsome. unfold UpdateUserHandler.
  rewrite Hb, Hid, FindByID_lookup. destruct Hsome as [old Hold].
  rewrite Hold, sendJSON_NoContent, Update_present by eauto.
  reflexivity.
Qed.

Lemma DeleteUserHandler_present e r id :
  uuid.Parse (URLParam_id r) = Some id ->
  is_Some (data (db e) !! id) ->
  DeleteUserHandler e http.fresh r
  = (mkEnv (mkApplication (delete id (data (db e)))) (reads e)
       (logs e ++ ["failed to write response to client."]),
     jsonReply 204 "").
Proof.
  intros Hid Hsome. unfold DeleteUserHandler.
  rewrite Hid, FindByID_lookup. destruct Hsome as [old Hold].
  rewrite Hold, sendJSON_NoContent, Delete_present by eauto.
  reflexivity.
Qed.

Lemma DeleteUserHandler_absent e r id :
  uuid.Parse (URLParam_id r) = Some id ->
  data (db e) !! id = None ->
  DeleteUserHandler e http.fresh r
  = (e, jsonReply 404
          (js "{'error':'The user with the specified ID does not exist.'}")).
Proof.
  intros Hid Hnone. unfold DeleteUserHandler.
  rewrite Hid, FindByID_lookup, Hnone. apply sendJSON_doesNotExist.
Qed.

End HandlerFacts.

(** * Creating a user *)

Section CreateFacts.

Variable rander : nat -> N.

Implicit Types (e : Env) (r : Request) (body : User).

Lemma foldl_decodeMember_None members : foldl decodeMember None members = None.
Proof. induction members as [|m ms IH]; [reflexivity|]. exact IH. Qed.

Lemma decodeMember_keeps b0 m b :
  decodeMember (Some b0) m = Some b ->
  (json.foldName 0 (fst m) <> "FIRST_NAME" -> FirstName b = FirstName b0)
  /\ (json.foldName 0 (fst m) <> "LAST_NAME" -> LastName b = LastName b0)
  /\ (json.foldName 0 (fst m) <> "BIOGRAPHY" -> Biography b = Biography b0).
Proof.
  unfold decodeMember.
  destruct (String.eqb_spec (json.foldName 0 (fst m)) "FIRST_NAME") as [E1|E1];
    [|destruct (String.eqb_spec (json.foldName 0 (fst m)) "LAST_NAME") as [E2|E2];
      [|destruct (String.eqb_spec (json.foldName 0 (fst m)) "BIOGRAPHY") as [E3|E3]]];
    destruct (snd m); intros H; inversion H; subst; cbn;
    repeat split; intros; congruence.
Qed.

Lemma decode_omitted members : forall b0 b,
  foldl decodeMember (Some b0) members = Some b ->
  (omits "first_name" members -> FirstName b = FirstName b0)
  /\ (omits "last_name" members -> LastName b = LastName b0)
  /\ (omits "biography" members -> Biography b = Biography b0).
Proof.
  induction members as [|m ms IH]; intros b0 b H; cbn [foldl] in H.
  - inversion H; subst. done.
  - destruct (decodeMember (Some b0) m) as [b1|] eqn:E.
    2:{ by rewrite foldl_decodeMember_None in H. }
    destruct (decodeMember_keeps _ _ _ E) as (K1 & K2 & K3).
    destruct (IH _ _ H) as (I1 & I2 & I3).
    repeat split; intros Ho; apply Forall_cons in Ho as [Hm Hms].
    + rewrite I1 by done. by apply K1.
    + rewrite I2 by done. by apply K2.
    + rewrite I3 by done. by apply K3.
Qed.

Lemma append_assoc (s1 s2 s3 : string) :
  (s1 +:+ s2) +:+ s3 = s1 +:+ (s2 +:+ s3).
Proof.
  induction s1 as [|c s1 IH]; [reflexivity|].
  change (String c ((s1 +:+ s2) +:+ s3) = String c (s1 +:+ (s2 +:+ s3))).
  by rewrite IH.
Qed.

Lemma marshalUserResponse_text id u :
  marshalUserResponse
    (mkUserResponse id (FirstName u) (LastName u) (Biography u))
  = userJSON id u.
Proof.
  unfold marshalUserResponse, userJSON, json.object, json.member.
  cbn [UserResponse_ID UserResponse_FirstName UserResponse_LastName
       UserResponse_Biography String.concat].
  rewrite !append_assoc. reflexivity.
Qed.

Lemma marshal_created id u :
  json_Marshal
    (mkResponse ""
       (any_UserResponse
          (mkUserResponse id (FirstName u) (LastName u) (Biography u))))
  = inl (js "{'data':" +:+ userJSON id u +:+ "}").
Proof.
  unfold json_Marshal, marshalAny. cbn [Error Data].
  rewrite marshalUserResponse_text. reflexivity.
Qed.

Lemma sendJSON_created e id u :
  sendJSON e http.fresh
    (mkResponse ""
       (any_UserResponse
          (mkUserResponse id (FirstName u) (LastName u) (Biography u))))
    http.StatusCreated
  = (e, jsonReply 201 (js "{'data':" +:+ userJSON id u +:+ "}")).
Proof.
  rewrite (sendJSON_fresh _ _ _ _ (marshal_created id u)); [reflexivity|].
  discriminate.
Qed.

Lemma CreateUserHandler_undecodable e r fuel :
  Decode r User_zero = None ->
  CreateUserHandler rander fuel e http.fresh r
  = Some (e, jsonReply 400
               (js "{'error':'Please provide FirstName LastName and bio for the user'}")).
Proof.
  intros H. unfold CreateUserHandler. by rewrite H, sendJSON_provideFields.
Qed.



End CreateFacts.

(** * Identifiers of version 4, and the sources that deliver them *)


Section Version4.

Local Open Scope N_scope.











End Version4.

Section Room.

Implicit Types (a : application) (id : ID) (u : User).








End Room.

(** * What the decoder takes, and what it makes of it *)

Section DecodeShape.

Implicit Types (r : Request) (body : User).





End DecodeShape.

(** * The order of [range] *)

Section RangeFacts.

Context {A : Type}.

Implicit Types (l rest : list A) (order : nat -> nat).

(** The loop visits every entry once. *)
Lemma visit_Permutation order : forall rest step,
  visit (List.length rest) order step rest ≡ₚ rest.
Proof.
  intros rest. remember (List.length rest) as fuel eqn:Hfuel.
  revert rest Hfuel.
  induction fuel as [|fuel IH]; intros rest Hfuel step; cbn [visit].
  - destruct rest; [done|discriminate].
  - assert (Hj : order step mod List.length rest < List.length rest)
      by (apply Nat.mod_upper_bound; lia).
    destruct (lookup_lt_is_Some_2 rest _ Hj) as [x Hx]. rewrite Hx.
    etransitivity; [|symmetry; apply (delete_Permutation rest _ x Hx)].
    constructor. apply IH.
    rewrite length_delete by eauto. lia.
Qed.

(** Only the choices from [step] on count. *)
Lemma visit_ext order order' : forall fuel step rest,
  (forall i, step <= i -> order i = order' i) ->
  visit fuel order step rest = visit fuel order' step rest.
Proof.
  induction fuel as [|fuel IH]; intros step rest H; cbn [visit]; [done|].
  rewrite (H step) by lia.
  destruct (rest !! (order' step mod List.length rest)); [|done].
  f_equal. apply IH. intros i Hi. apply H. lia.
Qed.

(** Every order of the entries is the order of some loop. *)
Lemma visit_any l : forall rest step,
  l ≡ₚ rest ->
  exists order, visit (List.length rest) order step rest = l.
Proof.
  induction l as [|x l IH]; intros rest step Hp.
  - apply Permutation_nil in Hp. subst. by exists (fun _ => 0).
  - assert (Hx : x ∈ rest) by (rewrite <- Hp; left).
    apply list_elem_of_lookup in Hx as [j Hj].
    assert (Hlt : j < List.length rest) by (by eapply lookup_lt_Some).
    assert (Hp' : l ≡ₚ delete j rest).
    { apply (Permutation_cons_inv (a:=x)).
      by rewrite Hp, <- (delete_Permutation rest j x Hj). }
    destruct (IH (delete j rest) (S step) Hp') as [order Horder].
    exists (fun i => if Nat.eqb i step then j else order i).
    destruct rest as [|y rest']; [cbn in Hlt; lia|].
    cbn [List.length visit]. rewrite Nat.eqb_refl.
    rewrite Nat.mod_small by exact Hlt. rewrite Hj. f_equal.
    rewrite <- Horder.
    rewrite length_delete by eauto. cbn [List.length].
    rewrite Nat.sub_1_r. cbn [Nat.pred].
    apply visit_ext. intros i Hi.
    destruct (Nat.eqb i step) eqn:E; [|done].
    apply Nat.eqb_eq in E. lia.
Qed.

End RangeFacts.

Section RangeOverMap.

Implicit Types (users : gmap ID User) (order : nat -> nat).

Lemma range_Permutation order users :
  range order users ≡ₚ map_to_list users.
Proof. unfold range. cbv zeta. apply visit_Permutation. Qed.

(** The entries the loop visits are the records of the map, each key
    once. *)
Lemma range_records order users :
  NoDup (range order users).*1
  /\ forall id u, (id, u) ∈ range order users <-> users !! id = Some u.
Proof.
  split.
  - rewrite range_Permutation. apply NoDup_fst_map_to_list.
  - intros id u. rewrite range_Permutation. apply elem_of_map_to_list.
Qed.

(** A list of the records of the map, each key once, in whatever order,
    is the order of some loop. *)
Lemma range_any users (visited : list (ID * User)) :
  NoDup visited.*1 ->
  (forall id u, (id, u) ∈ visited <-> users !! id = Some u) ->
  exists order, range order users = visited.
Proof.
  intros Hnd Hin. unfold range. cbv zeta. apply visit_any.
  apply NoDup_Permutation.
  - by eapply NoDup_fmap_1.
  - apply NoDup_map_to_list.
  - intros [id u]. by rewrite Hin, elem_of_map_to_list.
Qed.

Lemma range_empty order : range order ∅ = [].
Proof. unfold range. by rewrite map_to_list_empty. Qed.

End RangeOverMap.

(** * The specification's claims *)




(** The same insertion, computed: the second record of the store goes
    under the identifier made from block [1]. *)
Example Insert_second :
  Insert counter 0 (db oneUser) 1 grace
  = Some (NewApplication (<[uuid.NewRandomFrom 1 := grace]> {[ id0 := ada ]}),
          2, (grace, "00000000-0000-4000-8000-000000000001")).
Proof. vm_compute. reflexivity. Qed.

(** C2 -- after [Insert(u)] has returned the identifier [id] (the
    identifier whose string form it returned), [FindByID(id)] returns [u],
    and it still does after any run of calls with no [Update(id, _)] and no
    [Delete(id)] among them. *)
Theorem FindByID_after_Insert (rander : nat -> N) (fuel : nat)
  (a a1 : application) (n n1 : nat) (u stored : User) (s : string) (id : ID)
  (cs : list Call) (fuel' : nat) (st2 : application * nat) :
  Insert rander fuel a n u = Some (a1, n1, (stored, s)) ->
  uuid.Parse s = Some id ->
  Forall (fun c => writes id c = false) cs ->
  calls rander fuel' (a1, n1) cs = Some st2 ->
  FindByID a1 id = Some u
  /\ FindByID (fst st2) id = Some u.
Proof.
  intros HI Hparse Hcs Hrun.
  apply Insert_Some in HI as (k & _ & _ & Hfree & -> & -> & _ & ->).
  rewrite uuid_facts.Parse_String in Hparse
    by apply uuid_facts.NewRandomFrom_wf.
  injection Hparse as <-.
  assert (Hnow : data (mkApplication
                         (<[uuid_New rander (n + k) := u]> (data a)))
                 !! uuid_New rander (n + k) = Some u)
    by (cbn [data]; apply lookup_insert_eq).
  split.
  - by rewrite FindByID_lookup.
  - rewrite FindByID_lookup.
    by eapply (calls_keep rander fuel' cs (_, _)).
Qed.

Lemma FindByID_after_Insert_witness :
  FindByID (NewApplication {[ id0 := ada ]}) id0 = Some ada
  /\ FindByID (fst (laterStore, 3)) id0 = Some ada.
Proof.
  apply (FindByID_after_Insert counter 0 (NewApplication ∅)
           (NewApplication {[ id0 := ada ]}) 0 1 ada ada
           "00000000-0000-4000-8000-000000000000" id0 laterCalls 0
           (laterStore, 3)).
  - vm_compute. reflexivity.
  - vm_compute. reflexivity.
  - repeat constructor.
  - vm_compute. reflexivity.
Defined.

(** C3 -- [Update] on an identifier that is not in the store leaves the
    store unchanged, and [PUT /api/users/{id}] with a decodable body and
    such an identifier answers 404 (with the error envelope) and leaves
    the store unchanged as well. *)
Theorem Update_absent_no_effect (e : Env) (r : Request) (body u : User)
  (id : ID) :
  data (db e) !! id = None ->
  Decode r User_zero = Some body ->
  uuid.Parse (URLParam_id r) = Some id ->
  Update (db e) id u = db e
  /\ UpdateUserHandler e http.fresh r
     = (e, jsonReply 404
             (js "{'error':'The user with the specified ID does not exist.'}")).
Proof.
  intros Hnone Hbody Hid. split.
  - by apply Update_absent.
  - by eapply UpdateUserHandler_absent.
Qed.

Lemma Update_absent_no_effect_witness :
  Update (db noUsers) id0 ada = db noUsers
  /\ UpdateUserHandler noUsers http.fresh
       (emptyObjectFor "00000000-0000-4000-8000-000000000000")
     = (noUsers,
        jsonReply 404
          (js "{'error':'The user with the specified ID does not exist.'}")).
Proof.
  apply (Update_absent_no_effect noUsers
           (emptyObjectFor "00000000-0000-4000-8000-000000000000")
           User_zero ada id0).
  - reflexivity.
  - reflexivity.
  - vm_compute. reflexivity.
Defined.

(** What the guard [if response == nil] in [FindAllUsersHandler] is for:
    the [nil] slice is encoded as [null], the empty slice as [[]]. *)
Lemma json_Marshal_slices :
  json_Marshal (mkResponse "" (any_slice None)) = inl (js "{'data':null}")
  /\ json_Marshal (mkResponse "" (any_slice (Some []))) = inl (js "{'data':[]}").
Proof. split; reflexivity. Qed.

(** C4 -- on an empty store [GET /api/users] answers 200 with the body
    [{"data":[]}]: the key [data] is there and holds the empty array. *)
Theorem FindAllUsersHandler_empty (order : nat -> nat) (n : nat)
  (lg : list string) (r : Request) :
  FindAllUsersHandler order (mkEnv (NewApplication ∅) n lg) http.fresh r
  = (mkEnv (NewApplication ∅) n lg, jsonReply 200 (js "{'data':[]}")).
Proof.
  unfold FindAllUsersHandler, FindAll, NewApplication. cbn [db data].
  rewrite range_empty. cbn [foldl].
  destruct json_Marshal_slices as [_ Hempty].
  rewrite (sendJSON_fresh _ _ _ _ Hempty); [reflexivity|discriminate].
Qed.

(** C5 -- for an identifier that is in the store, [PUT /api/users/{id}]
    with a decodable body and [DELETE /api/users/{id}] answer 204 with an
    empty body, having replaced, respectively removed, the record. *)
Theorem NoContent_on_success (e : Env) (r : Request) (body : User) (id : ID) :
  is_Some (data (db e) !! id) ->
  uuid.Parse (URLParam_id r) = Some id ->
  Decode r User_zero = Some body ->
  (http.status (snd (UpdateUserHandler e http.fresh r)) = 204%Z
   /\ http.body (snd (UpdateUserHandler e http.fresh r)) = ""
   /\ data (db (fst (UpdateUserHandler e http.fresh r)))
      = <[id := body]> (data (db e)))
  /\ (http.status (snd (DeleteUserHandler e http.fresh r)) = 204%Z
      /\ http.body (snd (DeleteUserHandler e http.fresh r)) = ""
      /\ data (db (fst (DeleteUserHandler e http.fresh r)))
         = delete id (data (db e))).
Proof.
  intros Hsome Hid Hbody. split.
  - by rewrite (UpdateUserHandler_present e r body id).
  - by rewrite (DeleteUserHandler_present e r id).
Qed.

Lemma NoContent_on_success_witness :
  let r := emptyObjectFor "00000000-0000-4000-8000-000000000000" in
  (http.status (snd (UpdateUserHandler oneUser http.fresh r)) = 204%Z
   /\ http.body (snd (UpdateUserHandler oneUser http.fresh r)) = ""
   /\ data (db (fst (UpdateUserHandler oneUser http.fresh r)))
      = <[id0 := User_zero]> (data (db oneUser)))
  /\ (http.status (snd (DeleteUserHandler oneUser http.fresh r)) = 204%Z
      /\ http.body (snd (DeleteUserHandler oneUser http.fresh r)) = ""
      /\ data (db (fst (DeleteUserHandler oneUser http.fresh r)))
         = delete id0 (data (db oneUser))).
Proof.
  apply (NoContent_on_success oneUser
           (emptyObjectFor "00000000-0000-4000-8000-000000000000")
           User_zero id0).
  - exists ada. vm_compute. reflexivity.
  - vm_compute. reflexivity.
  - reflexivity.
Defined.

(** C6, refuted as stated -- a [PUT] whose path holds no valid identifier
    and whose body is not decodable is answered for the body, with the JSON
    envelope, and not with the plain text ["UUID not valid"]: the handler
    decodes the body before it parses the identifier. *)
Lemma UpdateUserHandler_decodes_first :
  let r := mkRequest "not-a-uuid" None in
  uuid.Parse (URLParam_id r) = None
  /\ UpdateUserHandler noUsers http.fresh r
     = (noUsers,
        jsonReply 400
          (js "{'error':'Please provide FirstName LastName and bio for the user'}"))
  /\ UpdateUserHandler noUsers http.fresh r
     <> (noUsers,
         http.Error http.fresh "UUID not valid" http.StatusBadRequest).
Proof.
  cbv zeta. split; [reflexivity|]. split.
  - by apply UpdateUserHandler_undecodable.
  - rewrite UpdateUserHandler_undecodable by reflexivity.
    intros H. apply (f_equal (fun p => http.body (snd p))) in H.
    vm_compute in H. discriminate H.
Qed.

(** C6, as the handler has it -- [PUT /api/users/{id}] decodes the body,
    then parses the path identifier, then looks the record up, then
    replaces it.  So a body that is not decodable is answered 400 with the
    JSON envelope whatever the identifier; an invalid identifier is
    answered with the plain text ["UUID not valid"] when the body is
    decodable; and an invalid identifier is answered 400, the store left as
    it was, in either case. *)
Theorem UpdateUserHandler_order (e : Env) (r : Request) :
  (Decode r User_zero = None ->
   UpdateUserHandler e http.fresh r
   = (e, jsonReply 400
           (js "{'error':'Please provide FirstName LastName and bio for the user'}")))
  /\ (forall body, Decode r User_zero = Some body ->
        uuid.Parse (URLParam_id r) = None ->
        UpdateUserHandler e http.fresh r
        = (e, textReply 400
                (String.append "UUID not valid" (String "010" EmptyString))))
  /\ (forall body id, Decode r User_zero = Some body ->
        uuid.Parse (URLParam_id r) = Some id ->
        data (db e) !! id = None ->
        UpdateUserHandler e http.fresh r
        = (e, jsonReply 404
                (js "{'error':'The user with the specified ID does not exist.'}")))
  /\ (forall body id, Decode r User_zero = Some body ->
        uuid.Parse (URLParam_id r) = Some id ->
        is_Some (data (db e) !! id) ->
        UpdateUserHandler e http.fresh r
        = (mkEnv (mkApplication (<[id := body]> (data (db e)))) (reads e)
             (logs e ++ ["failed to write response to client."]),
           jsonReply 204 ""))
  /\ (uuid.Parse (URLParam_id r) = None ->
      http.status (snd (UpdateUserHandler e http.fresh r)) = 400%Z
      /\ fst (UpdateUserHandler e http.fresh r) = e).
Proof.
  split; [apply UpdateUserHandler_undecodable|].
  split; [intros body; apply UpdateUserHandler_invalid|].
  split; [intros body id; apply UpdateUserHandler_absent|].
  split; [intros body id; apply UpdateUserHandler_present|].
  intros Hid. destruct (Decode r User_zero) as [body|] eqn:Hbody.
  - by rewrite (UpdateUserHandler_invalid e r body).
  - by rewrite UpdateUserHandler_undecodable.
Qed.

Lemma UpdateUserHandler_order_witness :
  let r := mkRequest "not-a-uuid" (Some (json.Object [])) in
  UpdateUserHandler oneUser http.fresh r
  = (oneUser,
     textReply 400 (String.append "UUID not valid" (String "010" EmptyString))).
Proof.
  cbv zeta.
  apply (proj1 (proj2 (UpdateUserHandler_order oneUser
                         (mkRequest "not-a-uuid" (Some (json.Object [])))))
           User_zero).
  - reflexivity.
  - reflexivity.
Defined.

(** C7 -- [GET /api/users/{id}] with a well-formed identifier that is not
    a key of the store answers 404 with the body
    [{"error":"The user with the specified ID does not exist."}]. *)
Theorem FindByIDUserHandler_absent (e : Env) (r : Request) (id : ID) :
  uuid.Parse (URLParam_id r) = Some id ->
  data (db e) !! id = None ->
  FindByIDUserHandler e http.fresh r
  = (e, jsonReply 404
          (js "{'error':'The user with the specified ID does not exist.'}")).
Proof.
  intros Hid Hnone. unfold FindByIDUserHandler.
  rewrite Hid, FindByID_lookup, Hnone. apply sendJSON_doesNotExist.
Qed.

Lemma FindByIDUserHandler_absent_witness :
  FindByIDUserHandler oneUser http.fresh
    (mkRequest "00000000-0000-4000-8000-000000000001" None)
  = (oneUser,
     jsonReply 404
       (js "{'error':'The user with the specified ID does not exist.'}")).
Proof.
  apply (FindByIDUserHandler_absent oneUser
           (mkRequest "00000000-0000-4000-8000-000000000001" None)
           (uuid.NewRandomFrom 1)).
  - vm_compute. reflexivity.
  - vm_compute. reflexivity.
Defined.




(** The replies of two requests on the empty store, computed: [{}] as body
    (every field omitted), and the scenario of the specification. *)
Example CreateUserHandler_empty_object :
  CreateUserHandler counter 0 noUsers http.fresh (emptyObjectFor "")
  = Some (mkEnv (NewApplication {[ id0 := User_zero ]}) 1 [],
          jsonReply 201
            (js "{'data':{'id':'00000000-0000-4000-8000-000000000000','first_name':'','last_name':'','biography':''}}")).
Proof. vm_compute. reflexivity. Qed.

Example CreateUserHandler_ada :
  CreateUserHandler counter 0 noUsers http.fresh
    (mkRequest ""
       (Some (json.Object [ ("first_name", json.Str "Ada");
                            ("last_name", json.Str "Lovelace");
                            ("biography", json.Str "mathematician") ])))
  = Some (mkEnv (NewApplication {[ id0 := ada ]}) 1 [],
          jsonReply 201
            (js "{'data':{'id':'00000000-0000-4000-8000-000000000000','first_name':'Ada','last_name':'Lovelace','biography':'mathematician'}}")).
Proof. vm_compute. reflexivity. Qed.

(** A body that gives one field only, and one that gives a field twice,
    a field [null], and a member that names no field: what is stored and
    echoed. *)
Example CreateUserHandler_first_name_only :
  decoded firstNameOnly = mkUser "Grace" "" ""
  /\ CreateUserHandler counter 0 oneUser http.fresh firstNameOnly
     = Some (mkEnv (NewApplication
                      (<[uuid.NewRandomFrom 1 := mkUser "Grace" "" ""]>
                         {[ id0 := ada ]})) 2 [],
             jsonReply 201
               (js "{'data':{'id':'00000000-0000-4000-8000-000000000001','first_name':'Grace','last_name':'','biography':''}}")).
Proof. split; vm_compute; reflexivity. Qed.

Example CreateUserHandler_mixed_members :
  decodable mixedMembers = true
  /\ decoded mixedMembers = mkUser "Grace" "Hopper" ""
  /\ Decode mixedMembers User_zero = Some (mkUser "Grace" "Hopper" "").
Proof. repeat split; vm_compute; reflexivity. Qed.




(** That insertion, computed: the first draw is the key of the one
    record, the second is free; one turn of the loop is needed and is
    enough. *)
Example Insert_after_one_collision :
  Insert counter 0 (db oneUser) 0 grace = None
  /\ Insert counter 1 (db oneUser) 0 grace
     = Some (twoUsers, 2, (grace, raw1)).
Proof. split; vm_compute; reflexivity. Qed.

(** What the assumption on the entropy source is for: a source that
    delivers one block only makes the loop draw the key of the one record
    for ever. *)
Example Insert_stuck_source :
  forall fuel, Insert (fun _ => 0%N) fuel (db oneUser) 0 ada = None.
Proof.
  intros fuel. apply Insert_busy. intros j _. apply has_true.
  exists ada. vm_compute. reflexivity.
Qed.

(** C10 -- frame: [Update(id, u)] and [Delete(id)] leave the record under
    every key other than [id] as it was, and [FindAll()] and [FindByID(id)]
    return what the store holds and leave the whole store as it was. *)
Theorem store_frame (rander : nat -> N) (a : application) (n : nat) (id : ID)
  (u : User) :
  (forall k, k <> id -> data (Update a id u) !! k = data a !! k)
  /\ (forall k, k <> id -> data (Delete a id) !! k = data a !! k)
  /\ (FindAll a = data a
      /\ forall fuel, call rander fuel (a, n) CallFindAll = Some (a, n))
  /\ (FindByID a id = data a !! id
      /\ forall fuel, call rander fuel (a, n) (CallFindByID id) = Some (a, n)).
Proof.
  split; [|split; [|split]].
  - intros k Hk. by apply Update_other.
  - intros k Hk. by apply Delete_other.
  - split; [reflexivity|]. intros fuel. reflexivity.
  - split; [apply FindByID_lookup|]. intros fuel. reflexivity.
Qed.

(** * Further properties: the store *)

Section StoreShape.

Implicit Types (a : application) (id : ID) (u : User).

Lemma data_Update a id u :
  data (Update a id u) = if has a id then <[id := u]> (data a) else data a.
Proof. unfold Update. by destruct (has a id). Qed.

Lemma data_Delete a id : data (Delete a id) = delete id (data a).
Proof.
  unfold Delete. destruct (has a id) eqn:H; cbn [negb data]; [done|].
  apply has_false in H. by rewrite delete_id.
Qed.

Lemma dom_Update a id u : dom (data (Update a id u)) = dom (data a).
Proof.
  rewrite data_Update. destruct (has a id) eqn:H; [|done].
  apply has_true in H. by apply dom_insert_lookup_L.
Qed.

Lemma size_Update a id u : size (data (Update a id u)) = size (data a).
Proof. by rewrite <- !size_dom, dom_Update. Qed.

End StoreShape.

(** X1 -- [Delete(id)] takes the key [id] out of the map and no other:
    the keys afterwards are the keys before without [id], [FindByID(id)]
    finds nothing, a second [Delete(id)] and an [Update(id, _)] change
    nothing, and when [id] was a key the map has one entry less. *)
Theorem Delete_removes (a : application) (id : ID) :
  dom (data (Delete a id)) = dom (data a) ∖ {[id]}
  /\ FindByID (Delete a id) id = None
  /\ Delete (Delete a id) id = Delete a id
  /\ (forall u, Update (Delete a id) id u = Delete a id)
  /\ (is_Some (data a !! id) -> size (data a) = S (size (data (Delete a id)))).
Proof.
  assert (Hgone : data (Delete a id) !! id = None)
    by (rewrite data_Delete; apply lookup_delete_eq).
  split; [by rewrite data_Delete, dom_delete_L|].
  split; [by rewrite FindByID_lookup|].
  split; [by apply Delete_absent|].
  split; [intros u; by apply Update_absent|].
  intros [old Hold]. rewrite data_Delete.
  rewrite <- (insert_delete_id (data a) id old Hold) at 1.
  rewrite map_size_insert_None; [done|apply lookup_delete_eq].
Qed.

(** X2 -- [Update(id, u)] never adds or removes a key: the keys and the
    number of entries are the same afterwards; [FindByID(id)] then
    returns [u] when [id] was a key and nothing when it was not; the same
    [Update] a second time changes nothing more. *)
Theorem Update_keeps_keys (a : application) (id : ID) (u : User) :
  dom (data (Update a id u)) = dom (data a)
  /\ size (data (Update a id u)) = size (data a)
  /\ FindByID (Update a id u) id = (if has a id then Some u else None)
  /\ Update (Update a id u) id u = Update a id u.
Proof.
  split; [apply dom_Update|].
  split; [apply size_Update|].
  split.
  - rewrite FindByID_lookup, data_Update. destruct (has a id) eqn:H.
    + apply lookup_insert_eq.
    + by apply has_false.
  - destruct (has a id) eqn:H.
    + unfold Update at 1.
      assert (has (Update a id u) id = true) as ->.
      { apply has_true. rewrite data_Update, H, lookup_insert_eq. by eexists. }
      cbn [negb]. rewrite data_Update, H, insert_insert_eq.
      unfold Update. by rewrite H.
    + apply has_false in H. rewrite (Update_absent a id u H).
      by apply Update_absent.
Qed.

(** X3 -- an [Insert] that returns overwrites nothing: every record of
    the store is still there under its key, the map has exactly one entry
    more, and at least one block was read from the entropy source. *)
Theorem Insert_adds_one (rander : nat -> N) (fuel : nat) (a : application)
  (n : nat) (u : User) (a' : application) (n' : nat) (stored : User)
  (s : string) :
  Insert rander fuel a n u = Some (a', n', (stored, s)) ->
  (forall k, is_Some (data a !! k) -> data a' !! k = data a !! k)
  /\ size (data a') = S (size (data a))
  /\ n < n'.
Proof.
  intros H. apply Insert_Some in H as (k & _ & _ & Hfree & -> & -> & _ & _).
  apply has_false in Hfree. cbn [data].
  split; [|split].
  - intros j Hj. apply lookup_insert_ne. intros <-.
    rewrite Hfree in Hj. by destruct Hj.
  - by apply map_size_insert_None.
  - lia.
Qed.

Lemma Insert_adds_one_witness :
  (forall k, is_Some (data (db oneUser) !! k) ->
             data twoUsers !! k = data (db oneUser) !! k)
  /\ size (data twoUsers) = S (size (data (db oneUser)))
  /\ 1 < 2.
Proof.
  apply (Insert_adds_one counter 0 (db oneUser) 1 grace twoUsers 2 grace raw1).
  vm_compute. reflexivity.
Defined.

(** X4 -- two insertions one after the other never return the same
    identifier: the two strings differ, they parse to two different
    identifiers, and both records are found under them afterwards. *)
Theorem Insert_twice (rander : nat -> N) (fuel1 fuel2 : nat)
  (a a1 a2 : application) (n n1 n2 : nat) (u1 u2 st1 st2 : User)
  (s1 s2 : string) :
  Insert rander fuel1 a n u1 = Some (a1, n1, (st1, s1)) ->
  Insert rander fuel2 a1 n1 u2 = Some (a2, n2, (st2, s2)) ->
  s1 <> s2
  /\ exists id1 id2,
       uuid.Parse s1 = Some id1 /\ uuid.Parse s2 = Some id2 /\ id1 <> id2
       /\ FindByID a2 id1 = Some u1 /\ FindByID a2 id2 = Some u2.
Proof.
  intros H1 H2.
  apply Insert_Some in H1 as (k1 & _ & _ & Hfree1 & -> & -> & _ & ->).
  apply Insert_Some in H2 as (k2 & _ & _ & Hfree2 & -> & -> & _ & ->).
  set (id1 := uuid_New rander (n + k1)) in *.
  set (id2 := uuid_New rander (S (n + k1) + k2)) in *.
  assert (Hne : id1 <> id2).
  { intros Heq. apply has_false in Hfree2. cbn [data] in Hfree2.
    rewrite <- Heq, lookup_insert_eq in Hfree2. discriminate. }
  assert (Hp1 : uuid.Parse (ID_String id1) = Some id1)
    by apply uuid_facts.Parse_String, uuid_facts.NewRandomFrom_wf.
  assert (Hp2 : uuid.Parse (ID_String id2) = Some id2)
    by apply uuid_facts.Parse_String, uuid_facts.NewRandomFrom_wf.
  split.
  - intros Heq. rewrite Heq in Hp1. congruence.
  - exists id1, id2. repeat split; try done.
    + rewrite FindByID_lookup. cbn [data].
      rewrite lookup_insert_ne by done. apply lookup_insert_eq.
    + rewrite FindByID_lookup. cbn [data]. apply lookup_insert_eq.
Qed.

Lemma Insert_twice_witness :
  raw0 <> raw1
  /\ exists id1 id2,
       uuid.Parse raw0 = Some id1 /\ uuid.Parse raw1 = Some id2 /\ id1 <> id2
       /\ FindByID twoUsers id1 = Some ada
       /\ FindByID twoUsers id2 = Some grace.
Proof.
  apply (Insert_twice counter 0 0 (db noUsers) (db oneUser) twoUsers 0 1 2
           ada grace ada grace raw0 raw1).
  - vm_compute. reflexivity.
  - vm_compute. reflexivity.
Defined.

(** X5 -- an identifier is given out again only after its record was
    deleted.  While [id] is a key and the entropy source delivers it at
    the next read, [Insert] reads on and returns another identifier; once
    [Delete(id)] has run, the same read makes [Insert] store the new
    record under [id], every other record as it was. *)
Theorem Insert_reissues (rander : nat -> N) (a : application) (id : ID)
  (n : nat) (u' : User) :
  is_Some (data a !! id) ->
  uuid_New rander n = id ->
  (forall fuel a' n' stored s,
     Insert rander fuel a n u' = Some (a', n', (stored, s)) ->
     s <> ID_String id /\ S n < n')
  /\ (forall fuel,
        Insert rander fuel (Delete a id) n u'
        = Some (mkApplication (<[id := u']> (data a)), S n,
                (u', ID_String id))).
Proof.
  intros Hkey Hdraw. split.
  - intros fuel a' n' stored s H.
    apply Insert_Some in H as (k & _ & Hbusy & Hfree & _ & -> & _ & ->).
    assert (Hk : k <> 0).
    { intros ->. rewrite Nat.add_0_r, Hdraw in Hfree.
      apply has_false in Hfree. rewrite Hfree in Hkey. by destruct Hkey. }
    split; [|lia]. intros Heq.
    apply uuid_facts.String_inj in Heq.
    + apply has_false in Hfree. rewrite Heq in Hfree. rewrite Hfree in Hkey.
      by destruct Hkey.
    + apply uuid_facts.NewRandomFrom_wf.
    + rewrite <- Hdraw. apply uuid_facts.NewRandomFrom_wf.
  - intros fuel.
    rewrite (Insert_first_free rander (Delete a id) n u' 0 fuel).
    + rewrite Nat.add_0_r, Hdraw, data_Delete, insert_delete_eq. reflexivity.
    + intros j Hj. lia.
    + rewrite Nat.add_0_r, Hdraw. apply has_false.
      rewrite data_Delete. apply lookup_delete_eq.
    + lia.
Qed.

Lemma Insert_reissues_witness :
  (forall fuel a' n' stored s,
     Insert counter fuel (db oneUser) 0 grace = Some (a', n', (stored, s)) ->
     s <> ID_String id0 /\ 1 < n')
  /\ (forall fuel,
        Insert counter fuel (Delete (db oneUser) id0) 0 grace
        = Some (mkApplication (<[id0 := grace]> (data (db oneUser))), 1,
                (grace, ID_String id0))).
Proof.
  apply (Insert_reissues counter (db oneUser) id0 0 grace).
  - exists ada. vm_compute. reflexivity.
  - reflexivity.
Defined.

(** X6 -- the string form of an identifier is thirty-six characters
    long, [uuid.Parse] reads it back as the same identifier, and two
    identifiers never share a string form. *)
Theorem ID_String_round_trip (id : ID) :
  uuid.wf id ->
  String.length (ID_String id) = 36
  /\ uuid.Parse (ID_String id) = Some id
  /\ forall id', uuid.wf id' -> ID_String id' = ID_String id -> id' = id.
Proof.
  intros Hid. split; [|split].
  - apply uuid_facts.format_length, uuid_facts.bytes_length.
  - by apply uuid_facts.Parse_String.
  - intros id' Hid' Heq. by apply uuid_facts.String_inj.
Qed.

Lemma ID_String_round_trip_witness :
  String.length (ID_String id0) = 36
  /\ uuid.Parse (ID_String id0) = Some id0
  /\ forall id', uuid.wf id' -> ID_String id' = ID_String id0 -> id' = id0.
Proof.
  apply (ID_String_round_trip id0). vm_compute. reflexivity.
Defined.

(** * Further properties: runs of calls from the empty store *)

Section Issued.

Variable rander : nat -> N.

Implicit Types (a : application) (id : ID) (u : User).

Lemma call_issued fuel a n c a' n' :
  issued rander n a -> size (data a) <= n ->
  call rander fuel (a, n) c = Some (a', n') ->
  issued rander n' a' /\ size (data a') <= n'.
Proof.
  intros Hiss Hsize Hc.
  destruct c as [user| |id|id user|id]; cbn [call fst snd] in Hc.
  - destruct (Insert rander fuel a n user) as [[[a1 n1] [stored s]]|] eqn:E;
      [|done].
    injection Hc as -> ->.
    apply Insert_Some in E as (k & _ & _ & Hfree & -> & -> & _ & _).
    apply has_false in Hfree. cbn [data]. split.
    + intros id Hid. cbn [data] in Hid.
      destruct (decide (id = uuid_New rander (n + k))) as [->|Hne].
      * exists (n + k). split; [lia|done].
      * rewrite lookup_insert_ne in Hid by done.
        destruct (Hiss id Hid) as (j & Hj & ->). exists j. split; [lia|done].
    + rewrite map_size_insert_None by done. lia.
  - by injection Hc as -> ->.
  - by injection Hc as -> ->.
  - injection Hc as <- <-. split.
    + intros k Hk. apply Hiss. apply elem_of_dom.
      rewrite <- (dom_Update a id user). by apply elem_of_dom.
    + by rewrite size_Update.
  - injection Hc as <- <-. split.
    + intros k Hk. rewrite data_Delete in Hk. apply Hiss.
      destruct (decide (k = id)) as [->|Hne].
      * rewrite lookup_delete_eq in Hk. by destruct Hk.
      * by rewrite lookup_delete_ne in Hk.
    + rewrite data_Delete.
      pose proof (map_subseteq_size (delete id (data a)) (data a)
                    (delete_subseteq _ _)). lia.
Qed.

Lemma calls_issued fuel cs : forall a n a' n',
  issued rander n a -> size (data a) <= n ->
  calls rander fuel (a, n) cs = Some (a', n') ->
  issued rander n' a' /\ size (data a') <= n'.
Proof.
  induction cs as [|c cs IH]; intros a n a' n' Hiss Hsize H; cbn [calls] in H.
  - by injection H as <- <-.
  - destruct (call rander fuel (a, n) c) as [[a1 n1]|] eqn:E; [|done].
    destruct (call_issued _ _ _ _ _ _ Hiss Hsize E) as [H1 H2].
    by eapply IH.
Qed.

End Issued.

(** * Further properties: responses *)

Section ReplyFacts.

Implicit Types (e : Env) (w : http.ResponseWriter) (resp : Response).
Implicit Types (r : Request) (id : ID) (u body : User).

Lemma sendJSON_user e (raw : string) u status :
  http.bodyAllowedForStatus status = true ->
  sendJSON e http.fresh
    (mkResponse ""
       (any_UserResponse
          (mkUserResponse raw (FirstName u) (LastName u) (Biography u))))
    status
  = (e, jsonReply status (js "{'data':" +:+ userJSON raw u +:+ "}")).
Proof.
  intros H. rewrite (sendJSON_fresh _ _ _ _ (marshal_created raw u)).
  - by rewrite H.
  - discriminate.
Qed.

Lemma foldl_append (l : list (ID * User)) : forall acc,
  foldl (fun response entry => append response (listed entry)) acc l
  = match l with
    | [] => acc
    | _ => Some (default [] acc ++ map listed l)%list
    end.
Proof.
  induction l as [|x l IH]; intros acc; [reflexivity|].
  cbn [foldl]. rewrite IH. destruct l as [|y l].
  - destruct acc; reflexivity.
  - destruct acc as [rs|]; simpl; [|reflexivity].
    by rewrite <- app_assoc.
Qed.

Lemma FindAllUsersHandler_reply (order : nat -> nat) e r :
  FindAllUsersHandler order e http.fresh r
  = (e, jsonReply 200
          (js "{'data':"
           +:+ json.array
                 (map (fun entry => userJSON (ID_String (fst entry)) (snd entry))
                    (range order (data (db e))))
           +:+ "}")).
Proof.
  unfold FindAllUsersHandler, FindAll.
  change (fun response entry => append response
            (mkUserResponse (ID_String (fst entry)) (FirstName (snd entry))
               (LastName (snd entry)) (Biography (snd entry))))
    with (fun response entry => append response (listed entry)).
  rewrite foldl_append.
  set (l := range order (data (db e))).
  assert (Hm : json_Marshal (mkResponse "" (any_slice (Some (map listed l))))
               = inl (js "{'data':"
                      +:+ json.array
                            (map (fun entry =>
                                    userJSON (ID_String (fst entry)) (snd entry)) l)
                      +:+ "}")).
  { unfold json_Marshal, marshalAny. cbn [Error Data]. rewrite map_map.
    erewrite map_ext; [reflexivity|].
    intros entry. unfold listed. apply marshalUserResponse_text. }
  destruct l as [|x l]; cbn [default app];
    (rewrite (sendJSON_fresh _ _ _ _ Hm); [reflexivity|discriminate]).
Qed.

Lemma DeleteUserHandler_invalid e r :
  uuid.Parse (URLParam_id r) = None ->
  DeleteUserHandler e http.fresh r = (e, textReply 400 notValid).
Proof.
  intros H. unfold DeleteUserHandler. rewrite H. by rewrite Error_fresh.
Qed.

Lemma FindByIDUserHandler_present e r id u :
  uuid.Parse (URLParam_id r) = Some id ->
  data (db e) !! id = Some u ->
  FindByIDUserHandler e http.fresh r
  = (e, jsonReply 200 (js "{'data':" +:+ userJSON (URLParam_id r) u +:+ "}")).
Proof.
  intros Hid Hu. unfold FindByIDUserHandler.
  rewrite Hid, FindByID_lookup, Hu. by apply sendJSON_user.
Qed.

Lemma FindByIDUserHandler_missing e r id :
  uuid.Parse (URLParam_id r) = Some id ->
  data (db e) !! id = None ->
  FindByIDUserHandler e http.fresh r
  = (e, jsonReply 404
          (js "{'error':'The user with the specified ID does not exist.'}")).
Proof.
  intros Hid Hnone. unfold FindByIDUserHandler.
  rewrite Hid, FindByID_lookup, Hnone. apply sendJSON_doesNotExist.
Qed.

End ReplyFacts.

(** X7 -- when [json.Marshal] fails, [sendJSON] logs the failure and
    answers 500 with the envelope [{"error":"something went wrong"}],
    whatever status it was called with; nothing of the response it was
    given is written. *)
Theorem sendJSON_fallback (e : Env) (resp : Response) (status : Z)
  (err : string) :
  json_Marshal resp = inr err ->
  sendJSON e http.fresh resp status
  = (slog_Error e "failed to marshal JSON data.",
     jsonReply 500 (js "{'error':'something went wrong'}")).
Proof.
  intros H. rewrite (sendJSON_error _ _ _ _ _ H).
  rewrite (sendJSON_ok _ _ somethingWentWrong _ _ eq_refl).
  reflexivity.
Qed.

Lemma sendJSON_fallback_witness :
  sendJSON noUsers http.fresh (mkResponse "" any_unsupported) 200
  = (slog_Error noUsers "failed to marshal JSON data.",
     jsonReply 500 (js "{'error':'something went wrong'}")).
Proof.
  apply (sendJSON_fallback noUsers (mkResponse "" any_unsupported) 200
           "json: unsupported type").
  reflexivity.
Defined.

(** X8 -- [GET /api/users] answers 200 with a [data] array that holds
    one element for each record of the store, made of the string form of
    its identifier and its three fields, and changes neither the store nor
    the log.  The elements come in the order the [range] loop visits the
    map, which Go leaves open: whatever that order, the elements are the
    records of the store, each once. *)
Theorem FindAllUsersHandler_lists (order : nat -> nat) (e : Env)
  (r : Request) :
  exists visited,
    FindAllUsersHandler order e http.fresh r
    = (e, jsonReply 200
            (js "{'data':"
             +:+ json.array
                   (map (fun entry =>
                           userJSON (ID_String (fst entry)) (snd entry))
                      visited)
             +:+ "}"))
    /\ NoDup visited.*1
    /\ List.length visited = size (data (db e))
    /\ forall id u, (id, u) ∈ visited <-> data (db e) !! id = Some u.
Proof.
  exists (range order (data (db e))).
  split; [apply FindAllUsersHandler_reply|].
  destruct (range_records order (data (db e))) as [Hnd Hin].
  split; [done|]. split; [|done].
  rewrite range_Permutation. apply length_map_to_list.
Qed.

(** Two records, listed in one order and in the other. *)
Example FindAllUsersHandler_either_order :
  FindAllUsersHandler (fun _ => 0) (mkEnv twoUsers 2 []) http.fresh
    (mkRequest "" None)
  = (mkEnv twoUsers 2 [],
     jsonReply 200
       (js "{'data':[{'id':'00000000-0000-4000-8000-000000000000','first_name':'Ada','last_name':'Lovelace','biography':'mathematician'},{'id':'00000000-0000-4000-8000-000000000001','first_name':'Grace','last_name':'Hopper','biography':'admiral'}]}"))
  /\ FindAllUsersHandler (fun _ => 1) (mkEnv twoUsers 2 []) http.fresh
       (mkRequest "" None)
     = (mkEnv twoUsers 2 [],
        jsonReply 200
          (js "{'data':[{'id':'00000000-0000-4000-8000-000000000001','first_name':'Grace','last_name':'Hopper','biography':'admiral'},{'id':'00000000-0000-4000-8000-000000000000','first_name':'Ada','last_name':'Lovelace','biography':'mathematician'}]}")).
Proof. split; vm_compute; reflexivity. Qed.

(** X9 -- a path segment that [uuid.Parse] rejects makes
    [GET /api/users/{id}] and [DELETE /api/users/{id}] answer 400 with the
    plain text of [http.Error], not with the JSON envelope, and the store
    is not touched. *)
Theorem invalid_identifier (e : Env) (r : Request) :
  uuid.Parse (URLParam_id r) = None ->
  FindByIDUserHandler e http.fresh r = (e, textReply 400 notValid)
  /\ DeleteUserHandler e http.fresh r = (e, textReply 400 notValid).
Proof.
  intros H. split.
  - unfold FindByIDUserHandler. cbv zeta. rewrite H. by rewrite Error_fresh.
  - unfold DeleteUserHandler. cbv zeta. rewrite H. by rewrite Error_fresh.
Qed.

Lemma invalid_identifier_witness :
  FindByIDUserHandler oneUser http.fresh (mkRequest "not-a-uuid" None)
  = (oneUser, textReply 400 notValid)
  /\ DeleteUserHandler oneUser http.fresh (mkRequest "not-a-uuid" None)
     = (oneUser, textReply 400 notValid).
Proof.
  apply (invalid_identifier oneUser (mkRequest "not-a-uuid" None)).
  reflexivity.
Defined.

(** X10 -- [GET /api/users/{id}] for a record of the store answers 200
    with the record, and the [id] of the reply is the path segment as it
    was sent, not the string form of the identifier it was parsed to; the
    store is not touched. *)
Theorem FindByIDUserHandler_found (e : Env) (r : Request) (id : ID)
  (u : User) :
  uuid.Parse (URLParam_id r) = Some id ->
  data (db e) !! id = Some u ->
  FindByIDUserHandler e http.fresh r
  = (e, jsonReply 200 (js "{'data':" +:+ userJSON (URLParam_id r) u +:+ "}")).
Proof.
  intros Hid Hu. unfold FindByIDUserHandler. cbv zeta.
  rewrite Hid, FindByID_lookup, Hu.
  rewrite (sendJSON_fresh _ _ _ _ (marshal_created (URLParam_id r) u)).
  - reflexivity.
  - discriminate.
Qed.

Lemma FindByIDUserHandler_found_witness :
  FindByIDUserHandler oneUser http.fresh (mkRequest bare0 None)
  = (oneUser, jsonReply 200 (js "{'data':" +:+ userJSON bare0 ada +:+ "}")).
Proof.
  apply (FindByIDUserHandler_found oneUser (mkRequest bare0 None) id0 ada).
  - vm_compute. reflexivity.
  - vm_compute. reflexivity.
Defined.

(** X11 -- [DELETE /api/users/{id}] for an identifier that is no key of
    the store answers 404 with the error envelope and leaves the store and
    the log as they are. *)
Theorem DeleteUserHandler_not_found (e : Env) (r : Request) (id : ID) :
  uuid.Parse (URLParam_id r) = Some id ->
  data (db e) !! id = None ->
  DeleteUserHandler e http.fresh r
  = (e, jsonReply 404
          (js "{'error':'The user with the specified ID does not exist.'}")).
Proof.
  intros Hid Hnone. unfold DeleteUserHandler. cbv zeta.
  rewrite Hid, FindByID_lookup, Hnone. apply sendJSON_doesNotExist.
Qed.

Lemma DeleteUserHandler_not_found_witness :
  DeleteUserHandler oneUser http.fresh (mkRequest raw1 None)
  = (oneUser, jsonReply 404
       (js "{'error':'The user with the specified ID does not exist.'}")).
Proof.
  apply (DeleteUserHandler_not_found oneUser (mkRequest raw1 None)
           (uuid.NewRandomFrom 1)).
  - vm_compute. reflexivity.
  - vm_compute. reflexivity.
Defined.

(** X12 -- after [DELETE /api/users/{id}] with a valid identifier, found
    or not, every request for that identifier answers 404 with the error
    envelope: the GET, a PUT with a body that decodes, and a second
    DELETE; none of them changes the state again. *)
Theorem after_DeleteUserHandler (e : Env) (r r' : Request) (id : ID)
  (body : User) :
  uuid.Parse (URLParam_id r) = Some id ->
  uuid.Parse (URLParam_id r') = Some id ->
  Decode r' User_zero = Some body ->
  let e1 := fst (DeleteUserHandler e http.fresh r) in
  let gone :=
    jsonReply 404
      (js "{'error':'The user with the specified ID does not exist.'}") in
  FindByIDUserHandler e1 http.fresh r' = (e1, gone)
  /\ UpdateUserHandler e1 http.fresh r' = (e1, gone)
  /\ DeleteUserHandler e1 http.fresh r' = (e1, gone).
Proof.
  intros Hid Hid' Hbody e1 gone.
  assert (Hgone : data (db e1) !! id = None).
  { subst e1. destruct (data (db e) !! id) as [old|] eqn:E.
    - rewrite (DeleteUserHandler_present e r id Hid) by eauto.
      cbn [fst db data]. apply lookup_delete_eq.
    - by rewrite (DeleteUserHandler_absent e r id Hid E). }
  split; [|split].
  - by apply (FindByIDUserHandler_missing e1 r' id).
  - by apply (UpdateUserHandler_absent e1 r' body id).
  - by apply (DeleteUserHandler_absent e1 r' id).
Qed.

Lemma after_DeleteUserHandler_witness :
  FindByIDUserHandler
    (fst (DeleteUserHandler oneUser http.fresh (mkRequest raw0 None)))
    http.fresh (emptyObjectFor bare0)
  = (fst (DeleteUserHandler oneUser http.fresh (mkRequest raw0 None)),
     jsonReply 404
       (js "{'error':'The user with the specified ID does not exist.'}"))
  /\ UpdateUserHandler
       (fst (DeleteUserHandler oneUser http.fresh (mkRequest raw0 None)))
       http.fresh (emptyObjectFor bare0)
     = (fst (DeleteUserHandler oneUser http.fresh (mkRequest raw0 None)),
        jsonReply 404
          (js "{'error':'The user with the specified ID does not exist.'}"))
  /\ DeleteUserHandler
       (fst (DeleteUserHandler oneUser http.fresh (mkRequest raw0 None)))
       http.fresh (emptyObjectFor bare0)
     = (fst (DeleteUserHandler oneUser http.fresh (mkRequest raw0 None)),
        jsonReply 404
          (js "{'error':'The user with the specified ID does not exist.'}")).
Proof.
  apply (after_DeleteUserHandler oneUser (mkRequest raw0 None)
           (emptyObjectFor bare0) id0 User_zero).
  - vm_compute. reflexivity.
  - vm_compute. reflexivity.
  - reflexivity.
Defined.

(** X13 -- after a [PUT /api/users/{id}] that found the record and
    decoded its body, [GET /api/users/{id}] answers 200 with exactly the
    body that was put: every field is replaced, also by the empty string
    of a member the body left out. *)
Theorem GET_after_PUT (e : Env) (r r' : Request) (id : ID) (body : User) :
  uuid.Parse (URLParam_id r) = Some id ->
  uuid.Parse (URLParam_id r') = Some id ->
  Decode r User_zero = Some body ->
  is_Some (data (db e) !! id) ->
  let e1 := fst (UpdateUserHandler e http.fresh r) in
  FindByIDUserHandler e1 http.fresh r'
  = (e1, jsonReply 200
           (js "{'data':" +:+ userJSON (URLParam_id r') body +:+ "}")).
Proof.
  intros Hid Hid' Hbody Hsome e1.
  apply (FindByIDUserHandler_present e1 r' id body Hid').
  subst e1. rewrite (UpdateUserHandler_present e r body id Hbody Hid Hsome).
  cbn [fst db data]. apply lookup_insert_eq.
Qed.

Lemma GET_after_PUT_witness :
  FindByIDUserHandler
    (fst (UpdateUserHandler oneUser http.fresh (requestWith raw0 grace)))
    http.fresh (mkRequest raw0 None)
  = (fst (UpdateUserHandler oneUser http.fresh (requestWith raw0 grace)),
     jsonReply 200 (js "{'data':" +:+ userJSON raw0 grace +:+ "}")).
Proof.
  apply (GET_after_PUT oneUser (requestWith raw0 grace) (mkRequest raw0 None)
           id0 grace).
  - vm_compute. reflexivity.
  - vm_compute. reflexivity.
  - reflexivity.
  - exists ada. vm_compute. reflexivity.
Defined.

Section CreateThenGet.

Variable rander : nat -> N.

Implicit Types (e : Env) (r : Request) (id : ID) (u body : User).

Lemma CreateUserHandler_created fuel e r body e1 w1 :
  Decode r User_zero = Some body ->
  CreateUserHandler rander fuel e http.fresh r = Some (e1, w1) ->
  exists k,
    (forall j, j < k -> has (db e) (uuid_New rander (reads e + j)) = true)
    /\ has (db e) (uuid_New rander (reads e + k)) = false
    /\ e1 = mkEnv (mkApplication
                     (<[uuid_New rander (reads e + k) := body]> (data (db e))))
              (S (reads e + k)) (logs e)
    /\ w1 = jsonReply 201
              (js "{'data':"
               +:+ userJSON (ID_String (uuid_New rander (reads e + k))) body
               +:+ "}").
Proof.
  intros Hbody H. unfold CreateUserHandler in H. rewrite Hbody in H.
  destruct (Insert rander fuel (db e) (reads e) body)
    as [[[a n] [stored s]]|] eqn:E; [|done].
  apply Insert_Some in E as (k & _ & Hbusy & Hfree & -> & -> & -> & ->).
  rewrite sendJSON_created in H.
  exists k. split; [done|]. split; [done|].
  remember (ID_String (uuid_New rander (reads e + k))) as s eqn:Hs.
  remember (<[uuid_New rander (reads e + k) := body]> (data (db e))) as m eqn:Hm.
  by injection H as <- <-.
Qed.

End CreateThenGet.

(** X14 -- the identifier a [POST /api/users] answers with was no key
    before, and a [GET /api/users/{id}] with that identifier in the path
    answers 200 with the same [data] object the POST answered with. *)
Theorem GET_after_POST (rander : nat -> N) (fuel : nat) (e : Env)
  (r : Request) (e1 : Env) (w1 : http.ResponseWriter) (body : User) :
  Decode r User_zero = Some body ->
  CreateUserHandler rander fuel e http.fresh r = Some (e1, w1) ->
  exists id,
    data (db e) !! id = None
    /\ w1 = jsonReply 201
              (js "{'data':" +:+ userJSON (ID_String id) body +:+ "}")
    /\ forall r',
         URLParam_id r' = ID_String id ->
         FindByIDUserHandler e1 http.fresh r'
         = (e1, jsonReply 200
                  (js "{'data':" +:+ userJSON (ID_String id) body +:+ "}")).
Proof.
  intros Hbody H.
  destruct (CreateUserHandler_created rander fuel e r body e1 w1 Hbody H)
    as (k & _ & Hfree & -> & ->).
  exists (uuid_New rander (reads e + k)).
  split; [by apply has_false|]. split; [reflexivity|].
  intros r' Hraw. rewrite <- Hraw.
  apply (FindByIDUserHandler_present _ r' (uuid_New rander (reads e + k))).
  - rewrite Hraw. apply uuid_facts.Parse_String, uuid_facts.NewRandomFrom_wf.
  - cbn [db data]. apply lookup_insert_eq.
Qed.

Lemma GET_after_POST_witness :
  exists id,
    data (db noUsers) !! id = None
    /\ createdAda
       = jsonReply 201 (js "{'data':" +:+ userJSON (ID_String id) ada +:+ "}")
    /\ forall r',
         URLParam_id r' = ID_String id ->
         FindByIDUserHandler oneUser http.fresh r'
         = (oneUser,
            jsonReply 200
              (js "{'data':" +:+ userJSON (ID_String id) ada +:+ "}")).
Proof.
  apply (GET_after_POST counter 0 noUsers (requestWith "" ada) oneUser
           createdAda ada).
  - reflexivity.
  - vm_compute. reflexivity.
Defined.

(** * Further properties: what the decoder takes *)

Section DecodeFacts.

Implicit Types (e : Env) (r : Request) (body : User).

Lemma decodeMember_unknown body m :
  namesField m = false -> decodeMember (Some body) m = Some body.
Proof.
  unfold namesField, decodeMember. intros H.
  apply orb_false_elim in H as [H H3]. apply orb_false_elim in H as [H1 H2].
  by rewrite H1, H2, H3.
Qed.

Lemma decodeMember_mistyped body m :
  mistyped m = true -> decodeMember (Some body) m = None.
Proof.
  unfold mistyped, namesField, decodeMember. intros H.
  apply andb_prop in H as [Hn Hv].
  destruct (String.eqb (json.foldName 0 (fst m)) "FIRST_NAME");
    [by destruct (snd m)|].
  destruct (String.eqb (json.foldName 0 (fst m)) "LAST_NAME");
    [by destruct (snd m)|].
  destruct (String.eqb (json.foldName 0 (fst m)) "BIOGRAPHY");
    [by destruct (snd m)|done].
Qed.

Lemma foldl_decodeMember_mistyped members : forall acc,
  existsb mistyped members = true ->
  foldl decodeMember acc members = None.
Proof.
  induction members as [|m ms IH]; intros acc H; [done|].
  cbn [existsb] in H. cbn [foldl].
  destruct acc as [body|]; [|apply foldl_decodeMember_None].
  destruct (mistyped m) eqn:Hm.
  - rewrite decodeMember_mistyped by done. apply foldl_decodeMember_None.
  - by apply IH.
Qed.

Lemma foldl_decodeMember_filter members : forall acc,
  foldl decodeMember acc (List.filter namesField members)
  = foldl decodeMember acc members.
Proof.
  induction members as [|m ms IH]; intros acc; [done|].
  cbn [List.filter foldl]. destruct (namesField m) eqn:Hm.
  - cbn [foldl]. apply IH.
  - rewrite IH. destruct acc as [body|]; [|done].
    by rewrite decodeMember_unknown.
Qed.

End DecodeFacts.

(** X15 -- a body whose object gives one of the three fields a value
    that is neither a string nor [null] (a number, a boolean, an array, an
    object) does not decode, wherever the member stands and whatever the
    other members are: POST and PUT answer 400 with the error envelope and
    the store is not touched; the PUT does so before it looks at the
    identifier. *)
Theorem mistyped_body_rejected (rander : nat -> N) (e : Env) (r : Request)
  (members : list (string * json.Value)) :
  Body r = Some (json.Object members) ->
  existsb mistyped members = true ->
  Decode r User_zero = None
  /\ (forall fuel,
        CreateUserHandler rander fuel e http.fresh r
        = Some (e, jsonReply 400
                     (js "{'error':'Please provide FirstName LastName and bio for the user'}")))
  /\ UpdateUserHandler e http.fresh r
     = (e, jsonReply 400
             (js "{'error':'Please provide FirstName LastName and bio for the user'}")).
Proof.
  intros HB Hm.
  assert (Hd : Decode r User_zero = None).
  { unfold Decode. rewrite HB. by apply foldl_decodeMember_mistyped. }
  split; [done|]. split.
  - intros fuel. by apply CreateUserHandler_undecodable.
  - by apply UpdateUserHandler_undecodable.
Qed.

Lemma mistyped_body_rejected_witness :
  Decode numberForName User_zero = None
  /\ (forall fuel,
        CreateUserHandler counter fuel oneUser http.fresh numberForName
        = Some (oneUser,
                jsonReply 400
                  (js "{'error':'Please provide FirstName LastName and bio for the user'}")))
  /\ UpdateUserHandler oneUser http.fresh numberForName
     = (oneUser,
        jsonReply 400
          (js "{'error':'Please provide FirstName LastName and bio for the user'}")).
Proof.
  apply (mistyped_body_rejected counter oneUser numberForName
           [ ("first_name", json.Number "1") ]).
  - reflexivity.
  - vm_compute. reflexivity.
Defined.

(** X16 -- members whose key names none of the three fields are
    skipped, whatever their value: a body decodes to what the same body
    without those members decodes to. *)
Theorem unknown_members_ignored (r r' : Request)
  (members : list (string * json.Value)) (body : User) :
  Body r = Some (json.Object members) ->
  Body r' = Some (json.Object (List.filter namesField members)) ->
  Decode r body = Decode r' body.
Proof.
  intros HB HB'. unfold Decode. rewrite HB, HB'.
  symmetry. apply foldl_decodeMember_filter.
Qed.

Lemma unknown_members_ignored_witness :
  Decode (mkRequest "" (Some (json.Object withNickname))) User_zero
  = Decode (mkRequest "" (Some (json.Object [ ("First_Name", json.Str "Ada") ])))
      User_zero.
Proof.
  apply (unknown_members_ignored
           (mkRequest "" (Some (json.Object withNickname)))
           (mkRequest "" (Some (json.Object [ ("First_Name", json.Str "Ada") ])))
           withNickname User_zero).
  - reflexivity.
  - vm_compute. reflexivity.
Defined.

(** * Further properties: the server *)

Section ServerFacts.

Variable rander : nat -> N.

Implicit Types (e : Env) (r : Request) (id : ID) (u body : User).

Lemma UpdateUserHandler_cases e r :
  let p := UpdateUserHandler e http.fresh r in
  (fst p = e /\ (http.status (snd p) = 400 \/ http.status (snd p) = 404)%Z)
  \/ (exists id body,
        is_Some (data (db e) !! id)
        /\ fst p = mkEnv (Update (db e) id body) (reads e)
                     (logs e ++ ["failed to write response to client."])
        /\ http.status (snd p) = 204%Z).
Proof.
  cbv zeta. destruct (Decode r User_zero) as [body|] eqn:Hb.
  2:{ left. by rewrite UpdateUserHandler_undecodable; auto. }
  destruct (uuid.Parse (URLParam_id r)) as [id|] eqn:Hid.
  2:{ left. rewrite (UpdateUserHandler_invalid e r body) by done. auto. }
  destruct (data (db e) !! id) as [old|] eqn:Hk.
  - right. exists id, body. split; [by eexists|].
    rewrite (UpdateUserHandler_present e r body id) by eauto.
    rewrite Update_present by eauto. auto.
  - left. rewrite (UpdateUserHandler_absent e r body id) by done. auto.
Qed.

Lemma DeleteUserHandler_cases e r :
  let p := DeleteUserHandler e http.fresh r in
  (fst p = e /\ (http.status (snd p) = 400 \/ http.status (snd p) = 404)%Z)
  \/ (exists id,
        is_Some (data (db e) !! id)
        /\ fst p = mkEnv (Delete (db e) id) (reads e)
                     (logs e ++ ["failed to write response to client."])
        /\ http.status (snd p) = 204%Z).
Proof.
  cbv zeta. destruct (uuid.Parse (URLParam_id r)) as [id|] eqn:Hid.
  2:{ left. rewrite (DeleteUserHandler_invalid e r) by done. auto. }
  destruct (data (db e) !! id) as [old|] eqn:Hk.
  - right. exists id. split; [by eexists|].
    rewrite (DeleteUserHandler_present e r id) by eauto.
    rewrite Delete_present by eauto. auto.
  - left. rewrite (DeleteUserHandler_absent e r id) by done. auto.
Qed.

Lemma FindByIDUserHandler_cases e r :
  let p := FindByIDUserHandler e http.fresh r in
  fst p = e
  /\ (http.status (snd p) = 200 \/ http.status (snd p) = 400
      \/ http.status (snd p) = 404)%Z.
Proof.
  cbv zeta. destruct (uuid.Parse (URLParam_id r)) as [id|] eqn:Hid.
  2:{ rewrite (FindByIDUserHandler_invalid e r) by done. auto. }
  destruct (data (db e) !! id) as [u|] eqn:Hk.
  - rewrite (FindByIDUserHandler_present e r id u) by done. auto.
  - rewrite (FindByIDUserHandler_missing e r id) by done. auto.
Qed.

Lemma CreateUserHandler_cases fuel e r e' w :
  CreateUserHandler rander fuel e http.fresh r = Some (e', w) ->
  (e' = e /\ http.status w = 400%Z)
  \/ (exists body a n stored s,
        Insert rander fuel (db e) (reads e) body = Some (a, n, (stored, s))
        /\ e' = mkEnv a n (logs e) /\ http.status w = 201%Z).
Proof.
  intros H. destruct (Decode r User_zero) as [body|] eqn:Hb.
  - right. unfold CreateUserHandler in H. rewrite Hb in H.
    destruct (Insert rander fuel (db e) (reads e) body)
      as [[[a n] [stored s]]|] eqn:E; [|done].
    exists body, a, n, stored, s. split; [done|].
    apply Insert_Some in E as (k & _ & _ & _ & _ & _ & -> & _).
    rewrite sendJSON_created in H.
    remember (js "{'data':" +:+ userJSON s body +:+ "}") as out.
    by injection H as <- <-.
  - left. rewrite CreateUserHandler_undecodable in H by done.
    by injection H as <- <-.
Qed.

Lemma FindAllUsersHandler_cases (order : nat -> nat) e r :
  fst (FindAllUsersHandler order e http.fresh r) = e
  /\ http.status (snd (FindAllUsersHandler order e http.fresh r)) = 200%Z.
Proof. rewrite FindAllUsersHandler_reply. auto. Qed.

Lemma serve_cases fuel order e q e' w :
  serve rander fuel order e q = Some (e', w) ->
  In (http.status w) (statuses (fst q))
  /\ ((e' = e /\ http.status w <> 201%Z /\ http.status w <> 204%Z)
      \/ (exists c,
            call rander fuel (db e, reads e) c = Some (db e', reads e')
            /\ (http.status w = 201 \/ http.status w = 204)%Z
            /\ fst q <> GET_users /\ fst q <> GET_users_id)).
Proof.
  destruct q as [route r]. unfold serve, NewHandler. cbn [fst snd].
  destruct route; intros H.
  - destruct (CreateUserHandler_cases fuel e r e' w H)
      as [[-> Hs]|(body & a & n & stored & s & HI & -> & Hs)]; rewrite Hs.
    + split; [cbn; auto|]. left. by repeat split.
    + split; [cbn; auto|]. right. exists (CallInsert body).
      cbn [call fst snd db reads]. rewrite HI. by repeat split; auto.
  - injection H as H. pose proof (f_equal fst H) as He.
    pose proof (f_equal snd H) as Hw. cbn [fst snd] in He, Hw. subst e' w.
    destruct (FindAllUsersHandler_cases order e r) as [-> ->].
    split; [cbn; auto|]. left. by repeat split.
  - injection H as H. pose proof (f_equal fst H) as He.
    pose proof (f_equal snd H) as Hw. cbn [fst snd] in He, Hw. subst e' w.
    destruct (FindByIDUserHandler_cases e r) as [-> Hs].
    split; [cbn; intuition|]. left. repeat split; intros Hx; rewrite Hx in Hs;
      by destruct Hs as [?|[?|?]].
  - injection H as H. pose proof (f_equal fst H) as He.
    pose proof (f_equal snd H) as Hw. cbn [fst snd] in He, Hw. subst e' w.
    destruct (UpdateUserHandler_cases e r)
      as [[-> Hs]|(id & body & _ & -> & Hs)].
    + split; [cbn; intuition|]. left. repeat split; intros Hx; rewrite Hx in Hs;
        by destruct Hs.
    + rewrite Hs. split; [cbn; auto|]. right. exists (CallUpdate id body).
      cbn [call fst snd db reads]. by repeat split; auto.
  - injection H as H. pose proof (f_equal fst H) as He.
    pose proof (f_equal snd H) as Hw. cbn [fst snd] in He, Hw. subst e' w.
    destruct (DeleteUserHandler_cases e r)
      as [[-> Hs]|(id & _ & -> & Hs)].
    + split; [cbn; intuition|]. left. repeat split; intros Hx; rewrite Hx in Hs;
        by destruct Hs.
    + rewrite Hs. split; [cbn; auto|]. right. exists (CallDelete id).
      cbn [call fst snd db reads]. by repeat split; auto.
Qed.

Lemma serveAll_calls fuel qs : forall orders e e' ws,
  serveAll rander fuel orders e qs = Some (e', ws) ->
  List.length ws = List.length qs
  /\ Forall (fun w => http.status w <> 500%Z) ws
  /\ exists cs, calls rander fuel (db e, reads e) cs = Some (db e', reads e').
Proof.
  induction qs as [|q qs IH]; intros orders e e' ws H; cbn [serveAll] in H.
  - injection H as <- <-. repeat split; [constructor|]. by exists [].
  - destruct (serve rander fuel (orders 0) e q) as [[e1 w]|] eqn:E; [|done].
    destruct (serveAll rander fuel (fun i => orders (S i)) e1 qs)
      as [[e2 ws']|] eqn:E2; [|done].
    injection H as <- <-.
    destruct (IH _ _ _ _ E2) as (Hlen & Hst & cs & Hcs).
    destruct (serve_cases fuel (orders 0) e q e1 w E) as [Hin Hc].
    split; [cbn; by rewrite Hlen|]. split.
    + constructor; [|done]. intros Hs. rewrite Hs in Hin.
      destruct (fst q); cbn in Hin; intuition discriminate.
    + destruct Hc as [[-> _]|(c & Hc & _)].
      * by exists cs.
      * exists (c :: cs). cbn [calls]. by rewrite Hc.
Qed.

End ServerFacts.

(** X17 -- every reply of a route carries one of the statuses the
    handler of that route writes: 201 or 400 for the POST, 200 for the
    list, 200, 400 or 404 for the GET of one record, 204, 400 or 404 for
    PUT and DELETE.  No route answers 500: the fallback of [sendJSON] is
    never reached from a handler. *)
Theorem serve_statuses (rander : nat -> N) (fuel : nat)
  (order : nat -> nat) (e : Env) (q : Route * Request) (e' : Env)
  (w : http.ResponseWriter) :
  serve rander fuel order e q = Some (e', w) ->
  In (http.status w) (statuses (fst q)) /\ http.status w <> 500%Z.
Proof.
  intros H. destruct (serve_cases rander fuel order e q e' w H) as [Hin _].
  split; [done|]. intros Hs. rewrite Hs in Hin.
  destruct (fst q); cbn in Hin; intuition discriminate.
Qed.

Lemma serve_statuses_witness :
  In (http.status (jsonReply 204 ""))
     (statuses (fst (DELETE_users_id, mkRequest raw0 None)))
  /\ http.status (jsonReply 204 "") <> 500%Z.
Proof.
  apply (serve_statuses counter 0 (fun _ => 0) oneUser
           (DELETE_users_id, mkRequest raw0 None) emptied (jsonReply 204 "")).
  vm_compute. reflexivity.
Defined.

(** X18 -- a request changes the state only when it is answered with
    201 or 204: with any other status the store, the number of blocks read
    and the log are what they were.  The two GET routes never change it. *)
Theorem serve_changes_nothing (rander : nat -> N) (fuel : nat)
  (order : nat -> nat) (e : Env) (q : Route * Request) (e' : Env)
  (w : http.ResponseWriter) :
  serve rander fuel order e q = Some (e', w) ->
  (http.status w <> 201%Z -> http.status w <> 204%Z -> e' = e)
  /\ (fst q = GET_users \/ fst q = GET_users_id -> e' = e).
Proof.
  intros H. destruct (serve_cases rander fuel order e q e' w H)
    as [_ [[-> _]|(c & _ & Hs & Hg1 & Hg2)]]; [done|].
  split.
  - intros H1 H2. by destruct Hs.
  - intros [Hq|Hq]; by rewrite Hq in *.
Qed.

Lemma serve_changes_nothing_witness :
  (http.status (textReply 400 notValid) <> 201%Z ->
   http.status (textReply 400 notValid) <> 204%Z -> oneUser = oneUser)
  /\ (fst (PUT_users_id, emptyObjectFor "not-a-uuid") = GET_users
      \/ fst (PUT_users_id, emptyObjectFor "not-a-uuid") = GET_users_id ->
      oneUser = oneUser).
Proof.
  apply (serve_changes_nothing counter 0 (fun _ => 0) oneUser
           (PUT_users_id, emptyObjectFor "not-a-uuid") oneUser
           (textReply 400 notValid)).
  vm_compute. reflexivity.
Defined.

(** X19 -- the server as [run] starts it, on an empty map: after any
    run of requests there is one reply for each request and none of them
    is a 500; the store holds no more records than blocks were read from
    the entropy source; and every key of the store is an identifier
    [uuid.New] made, of version 4, whose string form parses back to it. *)
Theorem serveAll_from_start (rander : nat -> N) (fuel : nat)
  (orders : nat -> nat -> nat) (lg : list string)
  (qs : list (Route * Request)) (e' : Env)
  (ws : list http.ResponseWriter) :
  serveAll rander fuel orders (mkEnv (NewApplication ∅) 0 lg) qs
  = Some (e', ws) ->
  List.length ws = List.length qs
  /\ Forall (fun w => http.status w <> 500%Z) ws
  /\ size (data (db e')) <= reads e'
  /\ forall id, is_Some (data (db e') !! id) ->
       (exists j, j < reads e' /\ id = uuid_New rander j)
       /\ uuid.isV4 id = true
       /\ uuid.Parse (ID_String id) = Some id.
Proof.
  intros H.
  destruct (serveAll_calls rander fuel qs _ _ _ _ H)
    as (Hlen & Hst & cs & Hcs).
  cbn [db reads] in Hcs.
  destruct (calls_issued rander fuel cs (NewApplication ∅) 0 (db e') (reads e'))
    as [Hiss Hsize]; [| |done|].
  - intros id Hid. cbn [NewApplication data] in Hid.
    rewrite lookup_empty in Hid. by destruct Hid.
  - cbn [NewApplication data]. by rewrite map_size_empty.
  - split; [done|]. split; [done|]. split; [done|].
    intros id Hid. destruct (Hiss id Hid) as (j & Hj & ->).
    split; [by exists j|]. split.
    + apply uuid_facts.NewRandomFrom_isV4.
    + apply uuid_facts.Parse_String, uuid_facts.NewRandomFrom_wf.
Qed.

Lemma serveAll_from_start_witness :
  List.length threeReplies = List.length threeRequests
  /\ Forall (fun w => http.status w <> 500%Z) threeReplies
  /\ size (data (db emptied)) <= reads emptied
  /\ forall id, is_Some (data (db emptied) !! id) ->
       (exists j, j < reads emptied /\ id = uuid_New counter j)
       /\ uuid.isV4 id = true
       /\ uuid.Parse (ID_String id) = Some id.
Proof.
  apply (serveAll_from_start counter 0 (fun _ _ => 0) [] threeRequests
           emptied threeReplies).
  vm_compute. reflexivity.
Defined.
